(** * vsearch [arch.cc]: the platform-abstraction layer

    A shallow embedding of [src/arch.cc] (allocator, file primitives,
    resource monitor, pseudo-random source) and the properties its
    specification states about it.

    The C++ functions are thin wrappers around operating-system and
    library calls chosen by the preprocessor.  The embedding keeps the
    three things the wrappers add: the preprocessor branch taken, the
    guards ([size == 0], [!t], [== -1]) with their calls to [fatal], and
    the conversions between the C integer types.  The operating system
    and the C/C++ run-time library are a record of answers ([host]). *)

From Stdlib Require Import ZArith Lia.
From stdpp Require Import base option list gmap strings.

Local Open Scope Z_scope.

(** ** C integer types

    A [w]-bit integer is a [Z]; a conversion to an unsigned type reduces
    modulo [2^w], a conversion to a signed type reduces to the
    two's-complement range. *)

Module CInt.

Definition to_unsigned (w x : Z) : Z := x mod 2 ^ w.

Definition to_signed (w x : Z) : Z :=
  (x + 2 ^ (w - 1)) mod 2 ^ w - 2 ^ (w - 1).

Definition uint32_t : Z -> Z := to_unsigned 32.
Definition uint64_t : Z -> Z := to_unsigned 64.
Definition int64_t : Z -> Z := to_signed 64.
Definition int : Z -> Z := to_signed 32.

Definition UINT64_MAX : Z := 2 ^ 64 - 1.

End CInt.

(** ** [std::mt19937]

    The engine the C++ standard fixes in [rand.eng.mers]: 624 words of 32
    bits and the index of the next word to hand out. *)

Module MT19937.

Definition n : nat := 624.
Definition m : nat := 397.
Definition matrix_a : Z := 0x9908b0df.
Definition upper_mask : Z := 0x80000000.
Definition lower_mask : Z := 0x7fffffff.

Record state := { mt : list Z; mti : nat }.

(** [mt[i] = 1812433253 * (mt[i-1] ^ (mt[i-1] >> 30)) + i], for [i] from
    [1] to [623]. *)
Fixpoint fill (count : nat) (i : Z) (prev : Z) : list Z :=
  match count with
  | O => []
  | S count' =>
      let x := CInt.uint32_t
                 (1812433253 * Z.lxor prev (Z.shiftr prev 30) + i) in
      x :: fill count' (i + 1) x
  end.

(** The constructor [std::mt19937 generator(value)]. *)
Definition seed (value : Z) : state :=
  let x0 := CInt.uint32_t value in
  {| mt := x0 :: fill (n - 1) 1 x0; mti := n |}.

Definition word (l : list Z) (k : nat) : Z := default 0 (l !! k).

(** One step of the in-place regeneration loop, at position [k]. *)
Definition twist_at (l : list Z) (k : nat) : list Z :=
  let y := Z.lor (Z.land (word l k) upper_mask)
                 (Z.land (word l ((k + 1) mod n)) lower_mask) in
  let mag := if Z.odd y then matrix_a else 0 in
  <[k := Z.lxor (Z.lxor (word l ((k + m) mod n)) (Z.shiftr y 1)) mag]> l.

Definition twist (l : list Z) : list Z := foldl twist_at l (seq 0 n).

Definition temper (y : Z) : Z :=
  let y := Z.lxor y (Z.shiftr y 11) in
  let y := Z.lxor y (Z.land (Z.shiftl y 7) 0x9d2c5680) in
  let y := Z.lxor y (Z.land (Z.shiftl y 15) 0xefc60000) in
  Z.lxor y (Z.shiftr y 18).

(** [generator()]: the next 32-bit value and the advanced engine. *)
Definition next (s : state) : Z * state :=
  let s' := if decide (n <= mti s)%nat
            then {| mt := twist (mt s); mti := 0 |} else s in
  (temper (word (mt s') (mti s')),
   {| mt := mt s'; mti := S (mti s') |}).

(** The sequence of the first [count] values of an engine. *)
Fixpoint take_values (count : nat) (s : state) : list Z :=
  match count with
  | O => []
  | S count' => let '(v, s') := next s in v :: take_values count' s'
  end.

End MT19937.

(** ** Build configuration

    The preprocessor symbols [arch.cc] tests.  The layer is built for
    64-bit targets: [long] has 32 bits where [_WIN32] is defined (LLP64)
    and 64 bits elsewhere (LP64); [size_t], [off_t] and [__int64] have 64
    bits. *)

Record target := {
  _WIN32 : bool;
  __APPLE__ : bool;
  has_SC_PHYS_PAGES : bool;      (* defined(_SC_PHYS_PAGES) *)
  has_SC_PAGESIZE : bool         (* defined(_SC_PAGESIZE) *)
}.

Definition long (t : target) : Z -> Z :=
  CInt.to_signed (if _WIN32 t then 32 else 64).

Definition LONG_MAX (t : target) : Z :=
  if _WIN32 t then 2 ^ 31 - 1 else 2 ^ 63 - 1.

(** ** The calls that leave the layer *)

Inductive sysconf_name := _SC_PHYS_PAGES | _SC_PAGESIZE | _SC_NPROCESSORS_ONLN.

Inductive open_flag := O_RDONLY | O_WRONLY | O_CREAT | O_TRUNC | O_BINARY.

Inductive mode_flag := S_IRUSR | S_IWUSR.

(** The status record [xstat_t] that [stat] and [fstat] fill in. *)
Record xstat_t := { st_size : Z; st_mtime : Z; st_mode : Z }.

(** One entry per call to the operating system or the C library, with the
    arguments the wrapper passed. *)
Inductive call :=
| GetProcessMemoryInfo_
| getrusage_
| GlobalMemoryStatusEx_
| sysctl_hw_memsize_
| sysconf_ (name : sysconf_name)
| sysinfo_
| GetSystemInfo_
| time_
| srand_ (seed : Z)
| random_device_
| dev_urandom_
| aligned_malloc_ (size alignment : Z)
| posix_memalign_ (alignment size : Z)
| aligned_realloc_ (ptr size alignment : Z)
| realloc_ (ptr size : Z)
| aligned_free_ (ptr : Z)
| free_ (ptr : Z)
| fstat64_ (fd : Z)
| fstat_ (fd : Z)
| stat64_ (path : string)
| stat_ (path : string)
| lseeki64_ (fd offset whence : Z)
| lseek_ (fd offset whence : Z)
| ftelli64_ (stream : Z)
| ftello_ (stream : Z)
| open_ (windows : bool) (path : string)
        (flags : list open_flag) (mode : list mode_flag).

(** ** The host

    What the operating system and the run-time library answer.  Installed
    memory, page size and processor count are constants of a host; the
    answers of the file calls and of [getrusage] may depend on the calls
    made so far.  [place] is the allocator's policy: where it would put a
    block of a given alignment and size in a given heap, if anywhere. *)

Record host := {
  (* allocator *)
  place : gmap Z (list Z) -> Z -> Z -> option Z;
  indeterminate : Z -> Z;
  malloc_alignment : Z;
  (* resource monitor *)
  PeakWorkingSetSize : list call -> Z;
  ru_maxrss : list call -> Z;
  ullTotalPhys : Z;
  sysctl_hw_memsize : Z * Z;
  sysconf : sysconf_name -> Z;
  sysinfo : Z * Z * Z;
  dwNumberOfProcessors : Z;
  (* entropy *)
  time : Z;
  random_device : option Z;      (* [None]: the device throws *)
  dev_urandom : option Z;
  (* C++ library: what the standard leaves to the implementation *)
  mt19937_seed_seq : list Z -> MT19937.state;
  uniform_int_distribution : MT19937.state -> Z * MT19937.state;
  (* files *)
  host_fstat : list call -> Z -> xstat_t -> Z * xstat_t;
  host_stat : list call -> string -> xstat_t -> Z * xstat_t;
  host_lseek : list call -> Z -> Z -> Z -> Z;
  host_ftello : list call -> Z -> Z;
  host_open : list call -> string -> list open_flag -> list mode_flag -> Z
}.

(** ** The process

    [opt_randseed] is the configured seed, [heap] maps the address of each
    live block to its bytes, [crt_seed] is the state [srand] sets,
    [generator] is the function-local [static] engine of [arch_random]
    (absent until the first call constructs it), [log] the calls made so
    far, latest first. *)

Record process := {
  opt_randseed : Z;
  heap : gmap Z (list Z);
  crt_seed : Z;
  generator : option MT19937.state;
  log : list call
}.

Definition set_heap (h : gmap Z (list Z)) (p : process) : process :=
  {| opt_randseed := opt_randseed p; heap := h; crt_seed := crt_seed p;
     generator := generator p; log := log p |}.

Definition set_crt_seed (s : Z) (p : process) : process :=
  {| opt_randseed := opt_randseed p; heap := heap p; crt_seed := s;
     generator := generator p; log := log p |}.

Definition set_generator (g : MT19937.state) (p : process) : process :=
  {| opt_randseed := opt_randseed p; heap := heap p; crt_seed := crt_seed p;
     generator := Some g; log := log p |}.

Definition record (c : call) (p : process) : process :=
  {| opt_randseed := opt_randseed p; heap := heap p; crt_seed := crt_seed p;
     generator := generator p; log := c :: log p |}.

(** A process as it starts: nothing allocated, the C library's generator
    in its initial state, [arch_random]'s engine not yet constructed. *)
Definition start (seed : Z) : process :=
  {| opt_randseed := seed; heap := ∅; crt_seed := 1;
     generator := None; log := [] |}.

(** ** Outcomes

    A call of the layer returns a value and leaves a process, or ends the
    process through [fatal], or has no defined behaviour (a pointer that
    is not a live block handed to the C library), or ends the process
    through [std::terminate] (an exception that nothing catches). *)

Inductive result (A : Type) : Type :=
| Ret (a : A) (p : process)
| Fatal (msg : string)
| Undefined
| Terminated.

Arguments Ret {A} a p.
Arguments Fatal {A} msg.
Arguments Undefined {A}.
Arguments Terminated {A}.

Definition M (A : Type) : Type := process -> result A.

#[global] Instance M_ret : MRet M := fun A (a : A) p => Ret a p.

#[global] Instance M_bind : MBind M :=
  fun A B (k : A -> M B) (c : M A) p =>
    match c p with
    | Ret a p' => k a p'
    | Fatal msg => Fatal msg
    | Undefined => Undefined
    | Terminated => Terminated
    end.

(** [fatal(message)] never returns. *)
Definition fatal {A} (msg : string) : M A := fun _ => Fatal msg.

(** An exception thrown where no handler is in reach. *)
Definition uncaught {A} : M A := fun _ => Terminated.

(** A call whose answer may depend on the calls made before it. *)
Definition ask {A} (c : call) (answer : list call -> A) : M A :=
  fun p => Ret (answer (log p)) (record c p).

Definition returned {A} (r : result A) : option A :=
  match r with Ret a _ => Some a | _ => None end.

Definition is_fatal {A} (r : result A) : bool :=
  match r with Fatal _ => true | _ => false end.

(** ** The C heap

    The blocks of the heap are kept by base address.  The host's policy
    proposes an address; the allocator hands it out only when it is not
    null, has the alignment asked for and the block overlaps no live one,
    and reports failure otherwise, so that every policy gives an allocator
    that keeps the C library's promises. *)

Module Heap.

Definition nullptr : Z := 0.

Definition disjoint (h : gmap Z (list Z)) (addr size : Z) : bool :=
  bool_decide (map_Forall
                 (fun a (b : list Z) =>
                    addr + size <= a \/ a + Z.of_nat (length b) <= addr) h).

Definition allocate (os : host) (h : gmap Z (list Z)) (alignment size : Z)
  : option Z :=
  match place os h alignment size with
  | Some addr =>
      if bool_decide (0 < addr) && bool_decide (addr mod alignment = 0)
         && disjoint h addr size
      then Some addr else None
  | None => None
  end.

(** The bytes of a block that nothing has written yet. *)
Definition fresh (os : host) (from count : nat) : list Z :=
  (fun i => indeterminate os (Z.of_nat i) mod 256) <$> seq from count.

(** The bytes of a block of [size] bytes that continues [old]. *)
Definition resize (os : host) (old : list Z) (size : Z) : list Z :=
  take (Z.to_nat size) old
    ++ fresh os (length old) (Z.to_nat size - length old).

(** A new block: its address (null on failure) and the heap after. *)
Definition alloc (os : host) (h : gmap Z (list Z)) (alignment size : Z)
  : Z * gmap Z (list Z) :=
  match allocate os h alignment size with
  | Some addr => (addr, <[addr := fresh os 0 (Z.to_nat size)]> h)
  | None => (nullptr, h)
  end.

(** Moving a block: [None] when [ptr] is neither null nor a live block;
    on failure the old block stays and null is returned. *)
Definition realloc (os : host) (h : gmap Z (list Z))
  (ptr alignment size : Z) : option (Z * gmap Z (list Z)) :=
  if decide (ptr = nullptr) then Some (alloc os h alignment size)
  else match h !! ptr with
       | None => None
       | Some old =>
           match allocate os (delete ptr h) alignment size with
           | Some addr =>
               Some (addr, <[addr := resize os old size]> (delete ptr h))
           | None => Some (nullptr, h)
           end
       end.

(** Releasing a block: nothing happens for null, [None] when [ptr] is
    neither null nor a live block. *)
Definition free (h : gmap Z (list Z)) (ptr : Z)
  : option (gmap Z (list Z)) :=
  if decide (ptr = nullptr) then Some h
  else match h !! ptr with
       | Some _ => Some (delete ptr h)
       | None => None
       end.

End Heap.

(** ** The library calls of the allocator, on a process *)

Definition ENOMEM : Z := 12.

(** [posix_memalign(&t, alignment, size)]: the return code and the value
    of [t] afterwards ([t] is left alone when the call fails). *)
Definition posix_memalign (os : host) (t alignment size : Z) : M (Z * Z) :=
  fun p =>
    let '(addr, h) := Heap.alloc os (heap p) alignment size in
    Ret (if decide (addr = Heap.nullptr) then (ENOMEM, t) else (0, addr))
        (record (posix_memalign_ alignment size) (set_heap h p)).

Definition _aligned_malloc (os : host) (size alignment : Z) : M Z :=
  fun p =>
    let '(addr, h) := Heap.alloc os (heap p) alignment size in
    Ret addr (record (aligned_malloc_ size alignment) (set_heap h p)).

(** [realloc] promises the alignment of [malloc], whatever the alignment
    of the block it is given. *)
Definition realloc (os : host) (ptr size : Z) : M Z :=
  fun p =>
    match Heap.realloc os (heap p) ptr (malloc_alignment os) size with
    | Some (addr, h) => Ret addr (record (realloc_ ptr size) (set_heap h p))
    | None => Undefined
    end.

Definition _aligned_realloc (os : host) (ptr size alignment : Z) : M Z :=
  fun p =>
    match Heap.realloc os (heap p) ptr alignment size with
    | Some (addr, h) =>
        Ret addr (record (aligned_realloc_ ptr size alignment) (set_heap h p))
    | None => Undefined
    end.

Definition free (ptr : Z) : M unit :=
  fun p =>
    match Heap.free (heap p) ptr with
    | Some h => Ret tt (record (free_ ptr) (set_heap h p))
    | None => Undefined
    end.

Definition _aligned_free (ptr : Z) : M unit :=
  fun p =>
    match Heap.free (heap p) ptr with
    | Some h => Ret tt (record (aligned_free_ ptr) (set_heap h p))
    | None => Undefined
    end.

Definition srand (seed : Z) : M unit :=
  fun p => Ret tt (record (srand_ seed) (set_crt_seed seed p)).

(** ** [arch.cc] *)

Section Arch.

Variable t : target.
Variable os : host.

Definition memalignment : Z := 16.

Definition arch_get_memused : M Z :=
  if _WIN32 t then
    pmc ← ask GetProcessMemoryInfo_ (PeakWorkingSetSize os);
    mret (CInt.uint64_t pmc)
  else
    r_usage ← ask getrusage_ (fun l => long t (ru_maxrss os l));
    if __APPLE__ t then
      (* Mac: ru_maxrss gives the size in bytes *)
      mret (CInt.uint64_t r_usage)
    else
      (* Linux: ru_maxrss gives the size in kilobytes *)
      mret (CInt.uint64_t (long t (r_usage * 1024))).

Definition arch_get_memtotal : M Z :=
  if _WIN32 t then
    ms ← ask GlobalMemoryStatusEx_ (fun _ => ullTotalPhys os);
    mret (CInt.uint64_t ms)
  else if __APPLE__ t then
    '(rc, ram) ← ask sysctl_hw_memsize_ (fun _ => sysctl_hw_memsize os);
    if decide (rc = -1)
    then fatal "Cannot determine amount of RAM"
    else mret (CInt.uint64_t (CInt.int64_t ram))
  else if has_SC_PHYS_PAGES t && has_SC_PAGESIZE t then
    phys_pages ← ask (sysconf_ _SC_PHYS_PAGES)
                     (fun _ => CInt.int64_t (long t (sysconf os _SC_PHYS_PAGES)));
    pagesize ← ask (sysconf_ _SC_PAGESIZE)
                   (fun _ => CInt.int64_t (long t (sysconf os _SC_PAGESIZE)));
    if bool_decide (phys_pages = -1) || bool_decide (pagesize = -1)
    then fatal "Cannot determine amount of RAM"
    else mret (CInt.uint64_t (CInt.int64_t (pagesize * phys_pages)))
  else
    '(rc, totalram, mem_unit) ← ask sysinfo_ (fun _ => sysinfo os);
    if decide (rc ≠ 0)
    then fatal "Cannot determine amount of RAM"
    else mret (CInt.uint64_t
                 (CInt.uint64_t totalram * CInt.uint32_t mem_unit)).

Definition arch_get_cores : M Z :=
  if _WIN32 t then
    si ← ask GetSystemInfo_ (fun _ => CInt.uint32_t (dwNumberOfProcessors os));
    mret (long t si)
  else
    ask (sysconf_ _SC_NPROCESSORS_ONLN)
        (fun _ => long t (sysconf os _SC_NPROCESSORS_ONLN)).

(** The generators [arch_srandom] constructs are local to its blocks:
    they are bound by [let] and gone when the function returns.
    [std::random_device rd] and [rd()] stand before the [try]: when the
    device throws, nothing catches the exception and the process ends.
    The stream on [/dev/urandom] is opened with the default exception
    mask, so a failure shows in [good()] and the [catch] block is not
    entered. *)
Definition arch_srandom : M unit :=
  fun p =>
    let seed := CInt.uint32_t (opt_randseed p) in
    (if decide (seed = 0) then
       if _WIN32 t then
         (* Use the current time as the seed *)
         now ← ask time_ (fun _ => time os);
         let seed := CInt.uint32_t now in
         srand seed
       else
         rd ← ask random_device_ (fun _ => random_device os);
         match rd with
         | None => uncaught
         | Some value =>
             let seed := CInt.uint32_t value in
             urandom ← ask dev_urandom_ (fun _ => dev_urandom os);
             let seed := match urandom with
                         | Some bytes => CInt.uint32_t bytes
                         | None => seed
                         end in
             let seq := [seed] in
             let generator := mt19937_seed_seq os seq in
             mret tt
         end
     else
       if _WIN32 t then
         srand seed
       else
         let generator := MT19937.seed seed in
         mret tt) p.

(** The engine is a function-local [static]: constructed with [42] by
    the first call, kept in the process afterwards. *)
Definition arch_random : M Z :=
  fun p =>
    let generator := match generator p with
                     | Some g => g
                     | None => MT19937.seed 42
                     end in
    let '(value, generator') := uniform_int_distribution os generator in
    Ret (CInt.uint64_t value) (set_generator generator' p).

(** The [#ifdef] block of [xmalloc]: the value of the pointer [t] of the
    source after it ([t0] before the block, [t1] after; [t] is the target
    here). *)
Definition xmalloc_platform (size : Z) : M Z :=
  let t0 := Heap.nullptr in
  if _WIN32 t then
    _aligned_malloc os size memalignment
  else
    '(rc, t1) ← posix_memalign os t0 memalignment size;
    mret (if decide (rc ≠ 0) then Heap.nullptr else t1).

Definition xmalloc (size : Z) : M Z :=
  let size := if decide (size = 0) then 1 else size in
  t1 ← xmalloc_platform size;
  if decide (t1 = Heap.nullptr)
  then fatal "Unable to allocate enough memory."
  else mret t1.

(** The [#ifdef] block of [xrealloc]. *)
Definition xrealloc_platform (ptr size : Z) : M Z :=
  if _WIN32 t then
    _aligned_realloc os ptr size memalignment
  else
    realloc os ptr size.

Definition xrealloc (ptr size : Z) : M Z :=
  let size := if decide (size = 0) then 1 else size in
  t1 ← xrealloc_platform ptr size;
  if decide (t1 = Heap.nullptr)
  then fatal "Unable to reallocate enough memory."
  else mret t1.

Definition xfree (ptr : Z) : M unit :=
  if decide (ptr ≠ Heap.nullptr) then
    if _WIN32 t then _aligned_free ptr else free ptr
  else
    fatal "Trying to free a null pointer".

Definition xfstat (fd : Z) (buf : xstat_t) : M (Z * xstat_t) :=
  '(rc, buf') ← ask (if _WIN32 t then fstat64_ fd else fstat_ fd)
                    (fun l => host_fstat os l fd buf);
  mret (CInt.int rc, buf').

Definition xstat (path : string) (buf : xstat_t) : M (Z * xstat_t) :=
  '(rc, buf') ← ask (if _WIN32 t then stat64_ path else stat_ path)
                    (fun l => host_stat os l path buf);
  mret (CInt.int rc, buf').

Definition xlseek (fd offset whence : Z) : M Z :=
  let off := CInt.int64_t offset in
  r ← ask (if _WIN32 t then lseeki64_ fd off whence
           else lseek_ fd off whence)
          (fun l => CInt.int64_t (host_lseek os l fd off whence));
  mret (CInt.uint64_t r).

Definition xftello (stream : Z) : M Z :=
  r ← ask (if _WIN32 t then ftelli64_ stream else ftello_ stream)
          (fun l => CInt.int64_t (host_ftello os l stream));
  mret (CInt.uint64_t r).

Definition xopen_read (path : string) : M Z :=
  let flags := if _WIN32 t then [O_RDONLY; O_BINARY] else [O_RDONLY] in
  ask (open_ (_WIN32 t) path flags [])
      (fun l => CInt.int (host_open os l path flags [])).

Definition xopen_write (path : string) : M Z :=
  let flags := if _WIN32 t
               then [O_WRONLY; O_CREAT; O_TRUNC; O_BINARY]
               else [O_WRONLY; O_CREAT; O_TRUNC] in
  let mode := [S_IRUSR; S_IWUSR] in
  ask (open_ (_WIN32 t) path flags mode)
      (fun l => CInt.int (host_open os l path flags mode)).

(** [count] successive calls of [arch_random]: the values drawn, in
    order, and the process left. *)
Fixpoint draws (count : nat) : M (list Z) :=
  match count with
  | O => mret []
  | S count' =>
      v ← arch_random;
      vs ← draws count';
      mret (v :: vs)
  end.

End Arch.

(** A process run configured with [seed]: [arch_srandom] once, then
    [count] draws. *)
Definition run_draws (t : target) (os : host) (seed : Z) (count : nat)
  : result (list Z) :=
  (_ ← arch_srandom t os; draws os count) (start seed).

(** The values [count] applications of a distribution draw from an
    engine. *)
Fixpoint distribution_values (d : MT19937.state -> Z * MT19937.state)
  (count : nat) (g : MT19937.state) : list Z :=
  match count with
  | O => []
  | S count' =>
      let '(v, g') := d g in
      CInt.uint64_t v :: distribution_values d count' g'
  end.

(** When [arch_srandom] returns: the configured seed is not zero, or the
    target is [_WIN32], or [std::random_device] does not throw. *)
Definition seeding_returns (t : target) (os : host) (seed : Z) : Prop :=
  CInt.uint32_t seed <> 0 \/ _WIN32 t = true \/ is_Some (random_device os).

(** The build in which [arch_get_memtotal] asks [sysconf]. *)
Definition sysconf_build (t : target) : Prop :=
  _WIN32 t = false /\ __APPLE__ t = false /\
  has_SC_PHYS_PAGES t = true /\ has_SC_PAGESIZE t = true.

(** What [sysconf] promises for the two memory questions: [-1] when it
    cannot tell, a positive number otherwise; the memory of the host, in
    bytes, fits an [int64_t]. *)
Definition sysconf_memory_ok (os : host) : Prop :=
  let pages := sysconf os _SC_PHYS_PAGES in
  let pagesize := sysconf os _SC_PAGESIZE in
  (pages = -1 \/ 0 < pages) /\ (pagesize = -1 \/ 0 < pagesize) /\
  (0 < pages -> 0 < pagesize -> pages * pagesize < 2 ^ 63).

(** The processor count the host reports to [arch_get_cores]: the
    [DWORD] field [dwNumberOfProcessors], or the answer of [sysconf]. *)
Definition reported_cores (t : target) (os : host) : Z :=
  if _WIN32 t then CInt.uint32_t (dwNumberOfProcessors os)
  else sysconf os _SC_NPROCESSORS_ONLN.

(** ** Heaps the allocator keeps

    Every live block is at a positive address and has at least one byte,
    and no two live blocks overlap. *)
Definition heap_ok (h : gmap Z (list Z)) : Prop :=
  map_Forall (fun a (b : list Z) => 0 < a /\ (0 < length b)%nat) h /\
  (forall a1 b1 a2 b2,
     h !! a1 = Some b1 -> h !! a2 = Some b2 -> a1 <> a2 ->
     a1 + Z.of_nat (length b1) <= a2 \/ a2 + Z.of_nat (length b2) <= a1).

(** Every live block starts at a multiple of [memalignment]. *)
Definition heap_aligned (h : gmap Z (list Z)) : Prop :=
  map_Forall (fun a (_ : list Z) => a mod memalignment = 0) h.

(** ** Programs over the layer

    A caller's run is a sequence of calls of the functions of [arch.cc],
    each with the arguments it was given. *)
Inductive request :=
| call_arch_get_memused
| call_arch_get_memtotal
| call_arch_get_cores
| call_arch_srandom
| call_arch_random
| call_xmalloc (size : Z)
| call_xrealloc (ptr size : Z)
| call_xfree (ptr : Z)
| call_xfstat (fd : Z) (buf : xstat_t)
| call_xstat (path : string) (buf : xstat_t)
| call_xlseek (fd offset whence : Z)
| call_xftello (stream : Z)
| call_xopen_read (path : string)
| call_xopen_write (path : string).

(** One call, its value dropped. *)
Definition perform (t : target) (os : host) (r : request) : M unit :=
  match r with
  | call_arch_get_memused => _ ← arch_get_memused t os; mret tt
  | call_arch_get_memtotal => _ ← arch_get_memtotal t os; mret tt
  | call_arch_get_cores => _ ← arch_get_cores t os; mret tt
  | call_arch_srandom => arch_srandom t os
  | call_arch_random => _ ← arch_random os; mret tt
  | call_xmalloc size => _ ← xmalloc t os size; mret tt
  | call_xrealloc ptr size => _ ← xrealloc t os ptr size; mret tt
  | call_xfree ptr => xfree t ptr
  | call_xfstat fd buf => _ ← xfstat t os fd buf; mret tt
  | call_xstat path buf => _ ← xstat t os path buf; mret tt
  | call_xlseek fd offset whence => _ ← xlseek t os fd offset whence; mret tt
  | call_xftello stream => _ ← xftello t os stream; mret tt
  | call_xopen_read path => _ ← xopen_read t os path; mret tt
  | call_xopen_write path => _ ← xopen_write t os path; mret tt
  end.

Fixpoint perform_all (t : target) (os : host) (rs : list request) : M unit :=
  match rs with
  | [] => mret tt
  | r :: rs' => _ ← perform t os r; perform_all t os rs'
  end.

Definition is_draw (r : request) : bool :=
  match r with call_arch_random => true | _ => false end.

(** The number of calls of [arch_random] in a run. *)
Definition count_draws (rs : list request) : nat :=
  length (filter (fun r => is_draw r = true) rs).

(** The sizes of a request are those of a [size_t]: not negative. *)
Definition sizes_ok (r : request) : Prop :=
  match r with
  | call_xmalloc size => 0 <= size
  | call_xrealloc _ size => 0 <= size
  | _ => True
  end.

(** The engine after [count] draws. *)
Definition engine_after (d : MT19937.state -> Z * MT19937.state)
  (count : nat) (g : MT19937.state) : MT19937.state :=
  Nat.iter count (fun g => (d g).2) g.

(** The alignment the target's reallocation call works to. *)
Definition realloc_alignment (t : target) (os : host) : Z :=
  if _WIN32 t then memalignment else malloc_alignment os.

(** The size [xmalloc] and [xrealloc] ask the library for. *)
Definition at_least_one (size : Z) : Z :=
  if decide (size = 0) then 1 else size.

(** ** Concrete targets and hosts *)

Module Hosts.

Definition linux : target :=
  {| _WIN32 := false; __APPLE__ := false;
     has_SC_PHYS_PAGES := true; has_SC_PAGESIZE := true |}.

Definition macos : target :=
  {| _WIN32 := false; __APPLE__ := true;
     has_SC_PHYS_PAGES := true; has_SC_PAGESIZE := true |}.

Definition windows : target :=
  {| _WIN32 := true; __APPLE__ := false;
     has_SC_PHYS_PAGES := false; has_SC_PAGESIZE := false |}.

(** The end of the highest live block (the heap starts at [4096]). *)
Definition top (h : gmap Z (list Z)) : Z :=
  map_fold (fun a (b : list Z) acc => Z.max acc (a + Z.of_nat (length b)))
           4096 h.

Definition align_up (a alignment : Z) : Z :=
  (a + alignment - 1) / alignment * alignment.

(** A bump allocator with a limit of one mebibyte per block. *)
Definition bump (h : gmap Z (list Z)) (alignment size : Z) : option Z :=
  if decide (size <= 1048576) then Some (align_up (top h) alignment)
  else None.

(** An allocator with an 8-byte size class: a block of 8 bytes or fewer
    that needs no more than 8-byte alignment is put at an address that
    is 8 modulo 16. *)
Definition small_class (h : gmap Z (list Z)) (alignment size : Z)
  : option Z :=
  if decide (size <= 8 /\ alignment <= 8)
  then Some (align_up (top h) 16 + 8)
  else bump h alignment size.

(** What libstdc++ does for the full 64-bit range over a 32-bit engine:
    two draws, the first the high half. *)
Definition two_draws (g : MT19937.state) : Z * MT19937.state :=
  let '(hi, g1) := MT19937.next g in
  let '(lo, g2) := MT19937.next g1 in
  (hi * 2 ^ 32 + lo, g2).

Definition no_stat : xstat_t := {| st_size := 0; st_mtime := 0; st_mode := 0 |}.

(** A host on which descriptor [3] is the one open file, the path
    [/data/in.fasta] the one file there is. *)
Definition machine : host :=
  {| place := bump;
     indeterminate := fun i => 170;
     malloc_alignment := 16;
     PeakWorkingSetSize := fun _ => 52428800;
     ru_maxrss := fun l => 51200 + Z.of_nat (length l);
     ullTotalPhys := 17179869184;
     sysctl_hw_memsize := (0, 17179869184);
     sysconf := fun name => match name with
                            | _SC_PHYS_PAGES => 4194304
                            | _SC_PAGESIZE => 4096
                            | _SC_NPROCESSORS_ONLN => 8
                            end;
     sysinfo := (0, 17179869184, 1);
     dwNumberOfProcessors := 8;
     time := 1700000000;
     random_device := Some 123456789;
     dev_urandom := Some 987654321;
     mt19937_seed_seq := fun seq => MT19937.seed (default 0 (head seq));
     uniform_int_distribution := two_draws;
     host_fstat := fun _ fd buf =>
       if decide (fd = 3)
       then (0, {| st_size := 1024; st_mtime := 1700000000; st_mode := 33188 |})
       else (-1, buf);
     host_stat := fun _ path buf =>
       if decide (path = "/data/in.fasta")
       then (0, {| st_size := 1024; st_mtime := 1700000000; st_mode := 33188 |})
       else (-1, buf);
     host_lseek := fun _ fd offset whence =>
       if decide (fd = 3 /\ 0 <= offset /\ whence = 0) then offset else -1;
     host_ftello := fun _ stream => if decide (stream = 0) then -1 else 512;
     host_open := fun _ path flags mode =>
       if decide (path = "/data/in.fasta") then 3 else -1 |}.

(** The same machine at another time, with other entropy. *)
Definition machine_later : host :=
  {| place := place machine;
     indeterminate := fun i => 85;
     malloc_alignment := malloc_alignment machine;
     PeakWorkingSetSize := PeakWorkingSetSize machine;
     ru_maxrss := ru_maxrss machine;
     ullTotalPhys := ullTotalPhys machine;
     sysctl_hw_memsize := sysctl_hw_memsize machine;
     sysconf := sysconf machine;
     sysinfo := sysinfo machine;
     dwNumberOfProcessors := dwNumberOfProcessors machine;
     time := 1700003600;
     random_device := Some 555;
     dev_urandom := None;
     mt19937_seed_seq := mt19937_seed_seq machine;
     uniform_int_distribution := uniform_int_distribution machine;
     host_fstat := host_fstat machine;
     host_stat := host_stat machine;
     host_lseek := host_lseek machine;
     host_ftello := host_ftello machine;
     host_open := host_open machine |}.

(** The machine with an allocator that has an 8-byte size class, whose
    [malloc] and [realloc] promise 8-byte alignment. *)
Definition machine_small_class : host :=
  {| place := small_class;
     indeterminate := indeterminate machine;
     malloc_alignment := 8;
     PeakWorkingSetSize := PeakWorkingSetSize machine;
     ru_maxrss := ru_maxrss machine;
     ullTotalPhys := ullTotalPhys machine;
     sysctl_hw_memsize := sysctl_hw_memsize machine;
     sysconf := sysconf machine;
     sysinfo := sysinfo machine;
     dwNumberOfProcessors := dwNumberOfProcessors machine;
     time := time machine;
     random_device := random_device machine;
     dev_urandom := dev_urandom machine;
     mt19937_seed_seq := mt19937_seed_seq machine;
     uniform_int_distribution := uniform_int_distribution machine;
     host_fstat := host_fstat machine;
     host_stat := host_stat machine;
     host_lseek := host_lseek machine;
     host_ftello := host_ftello machine;
     host_open := host_open machine |}.

(** The machine when [sysconf] cannot tell the number of processors. *)
Definition machine_no_cpu_count : host :=
  {| place := place machine;
     indeterminate := indeterminate machine;
     malloc_alignment := malloc_alignment machine;
     PeakWorkingSetSize := PeakWorkingSetSize machine;
     ru_maxrss := ru_maxrss machine;
     ullTotalPhys := ullTotalPhys machine;
     sysctl_hw_memsize := sysctl_hw_memsize machine;
     sysconf := fun name => match name with
                            | _SC_NPROCESSORS_ONLN => -1
                            | _ => sysconf machine name
                            end;
     sysinfo := sysinfo machine;
     dwNumberOfProcessors := dwNumberOfProcessors machine;
     time := time machine;
     random_device := random_device machine;
     dev_urandom := dev_urandom machine;
     mt19937_seed_seq := mt19937_seed_seq machine;
     uniform_int_distribution := uniform_int_distribution machine;
     host_fstat := host_fstat machine;
     host_stat := host_stat machine;
     host_lseek := host_lseek machine;
     host_ftello := host_ftello machine;
     host_open := host_open machine |}.

(** The machine when [std::random_device] has no source to read. *)
Definition machine_no_entropy : host :=
  {| place := place machine;
     indeterminate := indeterminate machine;
     malloc_alignment := malloc_alignment machine;
     PeakWorkingSetSize := PeakWorkingSetSize machine;
     ru_maxrss := ru_maxrss machine;
     ullTotalPhys := ullTotalPhys machine;
     sysctl_hw_memsize := sysctl_hw_memsize machine;
     sysconf := sysconf machine;
     sysinfo := sysinfo machine;
     dwNumberOfProcessors := dwNumberOfProcessors machine;
     time := time machine;
     random_device := None;
     dev_urandom := dev_urandom machine;
     mt19937_seed_seq := mt19937_seed_seq machine;
     uniform_int_distribution := uniform_int_distribution machine;
     host_fstat := host_fstat machine;
     host_stat := host_stat machine;
     host_lseek := host_lseek machine;
     host_ftello := host_ftello machine;
     host_open := host_open machine |}.

(** A process holding one block of four bytes at [4096]. *)
Definition one_block : process :=
  set_heap {[ 4096 := [1; 2; 3; 4] ]} (start 0).

(** A process holding that block and one of two bytes at [4112]. *)
Definition two_blocks : process :=
  set_heap (<[ 4112 := [9; 9] ]> {[ 4096 := [1; 2; 3; 4] ]}) (start 0).

End Hosts.

(** * Evaluation on concrete inputs *)

(** The standard's default seed gives the value the C++ standard
    requires of the 10000th call, and seed [42], the one [arch_random]
    uses, starts with [1608637542]. *)
Example mt19937_default_first :
  MT19937.take_values 1 (MT19937.seed 5489) = [3499211612].
Proof. by vm_compute. Qed.

Example mt19937_default_10000th :
  last (MT19937.take_values (100 * 100) (MT19937.seed 5489)) = Some 4123659995.
Proof. by vm_compute. Qed.

Example mt19937_42_first :
  MT19937.take_values 3 (MT19937.seed 42)
  = [1608637542; 3421126067; 4083286876].
Proof. by vm_compute. Qed.

Example run_draws_42 :
  returned (run_draws Hosts.linux Hosts.machine 42 3)
  = Some [6909045637428952499; 17537583593393853710; 13502904847239337031].
Proof. by vm_compute. Qed.

Example run_draws_7 :
  returned (run_draws Hosts.linux Hosts.machine 7 3)
  = Some [6909045637428952499; 17537583593393853710; 13502904847239337031].
Proof. by vm_compute. Qed.

Example arch_srandom_win32_seeds_rand :
  exists p, arch_srandom Hosts.windows Hosts.machine (start 7) = Ret tt p /\
            crt_seed p = 7 /\ generator p = None /\ log p = [srand_ 7].
Proof. eexists. repeat split. Qed.

Example arch_srandom_no_entropy :
  arch_srandom Hosts.linux Hosts.machine_no_entropy (start 0) = Terminated /\
  arch_srandom Hosts.linux Hosts.machine_no_entropy (start 42)
  = Ret tt (start 42) /\
  returned (arch_srandom Hosts.windows Hosts.machine_no_entropy (start 0))
  = Some tt.
Proof. repeat split. Qed.

Example xmalloc_zero_is_one_byte :
  exists p, xmalloc Hosts.linux Hosts.machine 0 (start 0) = Ret 4096 p /\
            heap p !! 4096 = Some [170] /\
            log p = [posix_memalign_ 16 1].
Proof. eexists. repeat split; by vm_compute. Qed.

Example xrealloc_shrink :
  exists p, xrealloc Hosts.linux Hosts.machine 4096 2 Hosts.one_block
            = Ret 4096 p /\
            heap p !! 4096 = Some [1; 2].
Proof. eexists. repeat split; by vm_compute. Qed.

Example xrealloc_too_large :
  xrealloc Hosts.linux Hosts.machine 4096 2000000 Hosts.one_block
  = Fatal "Unable to reallocate enough memory.".
Proof. by vm_compute. Qed.

Example xrealloc_win32_small_class :
  returned (xrealloc Hosts.windows Hosts.machine_small_class 4096 8
              Hosts.one_block) = Some 4096.
Proof. by vm_compute. Qed.

Example xfree_not_a_block :
  xfree Hosts.linux 5000 Hosts.one_block = Undefined.
Proof. by vm_compute. Qed.

Example arch_get_memtotal_linux :
  returned (arch_get_memtotal Hosts.linux Hosts.machine (start 0))
  = Some 17179869184.
Proof. by vm_compute. Qed.

Example arch_get_memused_linux_macos :
  returned (arch_get_memused Hosts.linux Hosts.machine (start 0))
  = Some 52428800 /\
  returned (arch_get_memused Hosts.macos Hosts.machine (start 0))
  = Some 51200.
Proof. split; by vm_compute. Qed.

Example arch_get_cores_failed_query :
  returned (arch_get_cores Hosts.linux Hosts.machine_no_cpu_count (start 0))
  = Some (-1).
Proof. by vm_compute. Qed.

Example xlseek_bad_descriptor :
  returned (xlseek Hosts.linux Hosts.machine 4 0 0 (start 0))
  = Some 18446744073709551615.
Proof. by vm_compute. Qed.

Example xlseek_beyond_4GiB :
  returned (xlseek Hosts.linux Hosts.machine 3 5000000000 0 (start 0))
  = Some 5000000000.
Proof. by vm_compute. Qed.

Example xopen_write_call :
  exists p, xopen_write Hosts.windows Hosts.machine "/data/in.fasta" (start 0)
            = Ret 3 p /\
            log p = [open_ true "/data/in.fasta"
                       [O_WRONLY; O_CREAT; O_TRUNC; O_BINARY]
                       [S_IRUSR; S_IWUSR]].
Proof. eexists. repeat split. Qed.

(** * Properties *)

Ltac run_layer :=
  unfold mbind, mret, M_bind, M_ret, ask, fatal in *.

(** ** Entropy source *)

Section Entropy.

Variable t : target.

(** [arch_srandom] leaves [arch_random]'s engine and the heap as it
    found them: what it seeds is the C library's [rand] or an engine of
    its own. *)
Lemma arch_srandom_generator (os : host) (p p' : process) :
  arch_srandom t os p = Ret tt p' ->
  generator p' = generator p /\ heap p' = heap p.
Proof.
  unfold arch_srandom, srand, uncaught. run_layer.
  destruct (decide _), (_WIN32 t); simpl;
    try destruct (random_device os); simpl; try done;
    by intros [= <-].
Qed.

(** It returns unless the seed is zero, the target is not [_WIN32] and
    [std::random_device] throws. *)
Lemma arch_srandom_returns (os : host) (p : process) :
  seeding_returns t os (opt_randseed p) ->
  exists p', arch_srandom t os p = Ret tt p'.
Proof.
  unfold seeding_returns, arch_srandom, srand, uncaught. run_layer.
  intros Hret.
  destruct (decide _) as [Hz|Hz], (_WIN32 t); simpl; eauto.
  destruct Hret as [?|[?|[v Hv]]]; [done..|].
  rewrite Hv. eauto.
Qed.

Lemma draws_from (os : host) (count : nat) :
  forall p,
    exists p',
      draws os count p
      = Ret (distribution_values (uniform_int_distribution os) count
               (default (MT19937.seed 42) (generator p))) p'.
Proof.
  induction count as [|count IH]; intros p; simpl.
  - eexists. reflexivity.
  - run_layer. unfold arch_random.
    destruct (generator p) as [g|] eqn:Hg; simpl;
      destruct (uniform_int_distribution os _) as [v g'] eqn:Hd; simpl;
      destruct (IH (set_generator g' p)) as [p' Hp']; simpl in Hp';
      rewrite Hp'; eauto.
Qed.

(** Whatever the seed and the host, a run in which the seeding returns
    draws the values of the engine seeded with [42]. *)
Lemma run_draws_values (os : host) (seed : Z) (count : nat) :
  seeding_returns t os seed ->
  returned (run_draws t os seed count)
  = Some (distribution_values (uniform_int_distribution os) count
            (MT19937.seed 42)).
Proof.
  intros Hret. unfold run_draws. run_layer.
  destruct (arch_srandom_returns os (start seed) Hret) as [p' Hp'].
  rewrite Hp'. apply arch_srandom_generator in Hp' as [Hg _].
  destruct (draws_from os count p') as [p'' ->].
  rewrite Hg. reflexivity.
Qed.

(** C1: two process runs configured with the same non-zero seed, each
    calling [arch_srandom] and then [arch_random] repeatedly, draw the
    same sequence of values.  The runs may differ in everything the
    host answers; they share the program, hence the distribution of the
    C++ library. *)
Theorem arch_random_same_seed_same_sequence
  (os1 os2 : host) (seed : Z) (count : nat) :
  CInt.uint32_t seed <> 0 ->
  uniform_int_distribution os1 = uniform_int_distribution os2 ->
  exists values,
    returned (run_draws t os1 seed count) = Some values /\
    returned (run_draws t os2 seed count) = Some values.
Proof.
  intros Hseed Hd.
  rewrite !run_draws_values, Hd by (by left). eauto.
Qed.

(** The sequence does not depend on the seed at all: [arch_random]
    never reads what [arch_srandom] set. *)
Remark arch_random_ignores_seed (os : host) (seed1 seed2 : Z) (count : nat) :
  seeding_returns t os seed1 -> seeding_returns t os seed2 ->
  returned (run_draws t os seed1 count)
  = returned (run_draws t os seed2 count).
Proof. intros H1 H2. by rewrite !run_draws_values. Qed.

End Entropy.

Lemma arch_random_same_seed_same_sequence_witness :
  CInt.uint32_t 42 <> 0 /\
  exists values,
    returned (run_draws Hosts.linux Hosts.machine 42 3) = Some values /\
    returned (run_draws Hosts.linux Hosts.machine_later 42 3) = Some values.
Proof.
  split; [by vm_compute|].
  apply (arch_random_same_seed_same_sequence
           Hosts.linux Hosts.machine Hosts.machine_later 42 3);
    [by vm_compute | reflexivity].
Defined.

(** ** Allocator *)

Section Allocator.

Variable t : target.
Variable os : host.

Lemma allocate_spec (h : gmap Z (list Z)) (alignment size addr : Z) :
  Heap.allocate os h alignment size = Some addr ->
  0 < addr /\ addr mod alignment = 0.
Proof.
  unfold Heap.allocate. destruct (place os h alignment size); [|done].
  destruct (bool_decide (0 < z)) eqn:H1; [|done].
  destruct (bool_decide (z mod alignment = 0)) eqn:H2; [|done].
  destruct (Heap.disjoint h z size); [|done].
  intros [= <-]. apply bool_decide_eq_true in H1, H2. done.
Qed.

Lemma alloc_spec (h h' : gmap Z (list Z)) (alignment size addr : Z) :
  Heap.alloc os h alignment size = (addr, h') ->
  addr mod alignment = 0.
Proof.
  unfold Heap.alloc.
  destruct (Heap.allocate os h alignment size) as [a|] eqn:Ha.
  - intros [= <- <-]. by apply allocate_spec in Ha as [_ ?].
  - intros [= <- <-]. apply Zmod_0_l.
Qed.

Lemma realloc_spec (h h' : gmap Z (list Z)) (ptr alignment size addr : Z) :
  Heap.realloc os h ptr alignment size = Some (addr, h') ->
  addr mod alignment = 0.
Proof.
  unfold Heap.realloc. destruct (decide (ptr = Heap.nullptr)).
  - intros [= H]. by apply alloc_spec in H.
  - destruct (h !! ptr); [|done].
    destruct (Heap.allocate os (delete ptr h) alignment size) eqn:Ha.
    + intros [= <- <-]. by apply allocate_spec in Ha as [_ ?].
    + intros [= <- <-]. apply Zmod_0_l.
Qed.

(** What [xmalloc] returns is a multiple of [memalignment], on every
    target. *)
Lemma xmalloc_aligned (size a : Z) (p p' : process) :
  xmalloc t os size p = Ret a p' -> a mod memalignment = 0.
Proof.
  unfold xmalloc, xmalloc_platform, _aligned_malloc, posix_memalign.
  run_layer. destruct (_WIN32 t);
    destruct (Heap.alloc os (heap p) memalignment _) as [addr h] eqn:Ha;
    apply alloc_spec in Ha; simpl.
  - destruct (decide (addr = Heap.nullptr)); [done|]. by intros [= <- _].
  - destruct (decide (addr = Heap.nullptr)); simpl; [done|].
    destruct (decide (addr = Heap.nullptr)); [done|]. by intros [= <- _].
Qed.

(** So is what [xrealloc] returns where [_aligned_realloc] is used. *)
Lemma xrealloc_aligned_win32 (ptr size a : Z) (p p' : process) :
  _WIN32 t = true ->
  xrealloc t os ptr size p = Ret a p' -> a mod memalignment = 0.
Proof.
  unfold xrealloc, xrealloc_platform, _aligned_realloc. run_layer.
  intros ->.
  destruct (Heap.realloc os (heap p) ptr memalignment _)
    as [[addr h]|] eqn:Hr; [|done].
  apply realloc_spec in Hr.
  destruct (decide (addr = Heap.nullptr)); [done|]. by intros [= <- _].
Qed.

(** Elsewhere it has the alignment [realloc] promises, no more. *)
Lemma xrealloc_aligned_posix (ptr size a : Z) (p p' : process) :
  _WIN32 t = false ->
  xrealloc t os ptr size p = Ret a p' -> a mod malloc_alignment os = 0.
Proof.
  unfold xrealloc, xrealloc_platform, realloc. run_layer.
  intros ->.
  destruct (Heap.realloc os (heap p) ptr (malloc_alignment os) _)
    as [[addr h]|] eqn:Hr; [|done].
  apply realloc_spec in Hr.
  destruct (decide (addr = Heap.nullptr)); [done|]. by intros [= <- _].
Qed.

Lemma xmalloc_nonnull (size a : Z) (p p' : process) :
  xmalloc t os size p = Ret a p' -> a <> Heap.nullptr.
Proof.
  unfold xmalloc. run_layer.
  destruct (xmalloc_platform t os _ p) as [t1 p1| | |]; [|done..].
  destruct (decide (t1 = Heap.nullptr)); [done|]. by intros [= <- _].
Qed.

Lemma xrealloc_nonnull (ptr size a : Z) (p p' : process) :
  xrealloc t os ptr size p = Ret a p' -> a <> Heap.nullptr.
Proof.
  unfold xrealloc. run_layer.
  destruct (xrealloc_platform t os ptr _ p) as [t1 p1| | |]; [|done..].
  destruct (decide (t1 = Heap.nullptr)); [done|]. by intros [= <- _].
Qed.

(** C3: [xmalloc] and [xrealloc] treat size zero as size one; when the
    underlying allocation fails (the platform call leaves a null
    pointer; for [posix_memalign], returns a non-zero code) they end in
    [fatal]; a pointer they return is never null. *)
Theorem xmalloc_xrealloc_fatal_or_nonnull (ptr size : Z) (p : process) :
  xmalloc t os 0 p = xmalloc t os 1 p /\
  xrealloc t os ptr 0 p = xrealloc t os ptr 1 p /\
  (returned (xmalloc_platform t os (if decide (size = 0) then 1 else size) p)
     = Some Heap.nullptr ->
   xmalloc t os size p = Fatal "Unable to allocate enough memory.") /\
  (_WIN32 t = false ->
   forall rc t1 p1,
     posix_memalign os Heap.nullptr memalignment
       (if decide (size = 0) then 1 else size) p = Ret (rc, t1) p1 ->
     rc <> 0 ->
     xmalloc t os size p = Fatal "Unable to allocate enough memory.") /\
  (returned (xrealloc_platform t os ptr (if decide (size = 0) then 1 else size) p)
     = Some Heap.nullptr ->
   xrealloc t os ptr size p = Fatal "Unable to reallocate enough memory.") /\
  (forall a p', xmalloc t os size p = Ret a p' -> a <> Heap.nullptr) /\
  (forall a p', xrealloc t os ptr size p = Ret a p' -> a <> Heap.nullptr).
Proof.
  repeat split.
  - unfold xmalloc. run_layer.
    destruct (xmalloc_platform t os _ p) as [t1 p1| | |] eqn:Hp;
      simpl; [|done..].
    intros [= ->]. by destruct (decide _).
  - intros Hw rc t1 p1 Hp Hrc. unfold xmalloc, xmalloc_platform.
    run_layer. cbv zeta. rewrite Hw, Hp.
    destruct (decide (rc <> 0)); [|done]. by destruct (decide _).
  - unfold xrealloc. run_layer.
    destruct (xrealloc_platform t os ptr _ p) as [t1 p1| | |] eqn:Hp;
      simpl; [|done..].
    intros [= ->]. by destruct (decide _).
  - intros a p'. apply xmalloc_nonnull.
  - intros a p'. apply xrealloc_nonnull.
Qed.

(** C4: [xfree] of a null pointer ends in [fatal]; [xfree] of a live
    block releases it through the deallocation call of the target
    ([_aligned_free] under [_WIN32], [free] elsewhere) and returns. *)
Theorem xfree_null_fatal_nonnull_releases (ptr : Z) (p : process) :
  xfree t Heap.nullptr p = Fatal "Trying to free a null pointer" /\
  (ptr <> Heap.nullptr ->
   is_Some (heap p !! ptr) ->
   xfree t ptr p
   = Ret tt (record (if _WIN32 t then aligned_free_ ptr else free_ ptr)
               (set_heap (delete ptr (heap p)) p))).
Proof.
  split; [reflexivity|].
  intros Hptr [b Hb]. unfold xfree, _aligned_free, free, Heap.free.
  destruct (decide (ptr <> Heap.nullptr)); [|done].
  destruct (_WIN32 t); destruct (decide (ptr = Heap.nullptr));
    try done; by rewrite Hb.
Qed.

Lemma resize_length (old : list Z) (size : Z) :
  length (Heap.resize os old size) = Z.to_nat size.
Proof.
  unfold Heap.resize, Heap.fresh.
  rewrite length_app, length_take, length_fmap, length_seq. lia.
Qed.

Lemma resize_prefix (old : list Z) (size : Z) (k : nat) :
  (k <= length old)%nat -> (k <= Z.to_nat size)%nat ->
  take k (Heap.resize os old size) = take k old.
Proof.
  intros H1 H2. unfold Heap.resize.
  rewrite take_app_le by (rewrite length_take; lia).
  rewrite take_take. f_equal. lia.
Qed.

(** C5: for [xrealloc] of a live block of [m] bytes to [n] bytes, the
    outcome follows the library's allocation.  When it fails, [xrealloc]
    ends in [fatal]; when it gives an address, [xrealloc] returns that
    address, and the block there has the first [min m n] bytes of the
    old block (all of them when [n] is at least [m]).  So every block
    [xrealloc] returns has them. *)
Theorem xrealloc_preserves_contents
  (ptr n : Z) (old : list Z) (p : process) :
  ptr <> Heap.nullptr ->
  heap p !! ptr = Some old ->
  match Heap.allocate os (delete ptr (heap p)) (realloc_alignment t os)
          (at_least_one n) with
  | None =>
      xrealloc t os ptr n p = Fatal "Unable to reallocate enough memory."
  | Some q =>
      exists p' new,
        xrealloc t os ptr n p = Ret q p' /\
        heap p' !! q = Some new /\
        length new = Z.to_nat (at_least_one n) /\
        take (Z.to_nat (Z.min (Z.of_nat (length old)) n)) new
        = take (Z.to_nat (Z.min (Z.of_nat (length old)) n)) old /\
        (Z.of_nat (length old) <= n -> take (length old) new = old)
  end /\
  (forall q p',
     xrealloc t os ptr n p = Ret q p' ->
     exists new,
       heap p' !! q = Some new /\
       length new = Z.to_nat (at_least_one n) /\
       take (Z.to_nat (Z.min (Z.of_nat (length old)) n)) new
       = take (Z.to_nat (Z.min (Z.of_nat (length old)) n)) old /\
       (Z.of_nat (length old) <= n -> take (length old) new = old)).
Proof.
  intros Hptr Hold.
  assert (Hsize : n <= at_least_one n)
    by (unfold at_least_one; destruct (decide _); lia).
  assert (Hnew : forall new,
             new = Heap.resize os old (at_least_one n) ->
             length new = Z.to_nat (at_least_one n) /\
             take (Z.to_nat (Z.min (Z.of_nat (length old)) n)) new
             = take (Z.to_nat (Z.min (Z.of_nat (length old)) n)) old /\
             (Z.of_nat (length old) <= n -> take (length old) new = old)).
  { intros new ->. split; [apply resize_length|]. split.
    - apply resize_prefix; lia.
    - intros Hle. rewrite resize_prefix by lia. apply firstn_all. }
  assert (Hrun :
    xrealloc t os ptr n p
    = match Heap.allocate os (delete ptr (heap p)) (realloc_alignment t os)
              (at_least_one n) with
      | None => Fatal "Unable to reallocate enough memory."
      | Some q =>
          Ret q (record (if _WIN32 t
                         then aligned_realloc_ ptr (at_least_one n) memalignment
                         else realloc_ ptr (at_least_one n))
                   (set_heap (<[q := Heap.resize os old (at_least_one n)]>
                                (delete ptr (heap p))) p))
      end).
  { unfold xrealloc, xrealloc_platform, _aligned_realloc, realloc,
      Heap.realloc, realloc_alignment.
    fold (at_least_one n). run_layer.
    destruct (_WIN32 t); cbv beta;
      (destruct (decide (ptr = Heap.nullptr)); [done|]); rewrite Hold;
      destruct (Heap.allocate os (delete ptr (heap p)) _ (at_least_one n))
        as [addr|] eqn:Ha; simpl; try done;
      apply allocate_spec in Ha as [Hpos _];
      destruct (decide (addr = Heap.nullptr));
      try (unfold Heap.nullptr in *; lia); done. }
  rewrite Hrun.
  destruct (Heap.allocate os (delete ptr (heap p)) (realloc_alignment t os)
              (at_least_one n)) as [addr|]; split; try done.
  - eexists _, _. split; [reflexivity|]. simpl.
    rewrite lookup_insert_eq. split; [reflexivity|]. by apply Hnew.
  - intros q p' [= <- <-]. eexists. simpl.
    rewrite lookup_insert_eq. split; [reflexivity|]. by apply Hnew.
Qed.

End Allocator.

Lemma xmalloc_xrealloc_fatal_or_nonnull_witness :
  returned (xmalloc_platform Hosts.linux Hosts.machine 2000000 (start 0))
  = Some Heap.nullptr /\
  xmalloc Hosts.linux Hosts.machine 2000000 (start 0)
  = Fatal "Unable to allocate enough memory.".
Proof.
  split; [by vm_compute|].
  apply (proj1 (proj2 (proj2
           (xmalloc_xrealloc_fatal_or_nonnull
              Hosts.linux Hosts.machine 0 2000000 (start 0))))).
  by vm_compute.
Defined.

Lemma xfree_null_fatal_nonnull_releases_witness :
  4096 <> Heap.nullptr /\
  is_Some (heap Hosts.one_block !! 4096) /\
  xfree Hosts.linux 4096 Hosts.one_block
  = Ret tt (record (free_ 4096)
              (set_heap (delete 4096 (heap Hosts.one_block)) Hosts.one_block)).
Proof.
  assert (H1 : 4096 <> Heap.nullptr) by (by vm_compute).
  assert (H2 : is_Some (heap Hosts.one_block !! 4096))
    by (eexists; by vm_compute).
  split; [exact H1|]. split; [exact H2|].
  exact (proj2 (xfree_null_fatal_nonnull_releases
                  Hosts.linux 4096 Hosts.one_block) H1 H2).
Defined.

Lemma xrealloc_preserves_contents_witness :
  4096 <> Heap.nullptr /\
  heap Hosts.one_block !! 4096 = Some [1; 2; 3; 4] /\
  exists new p',
    xrealloc Hosts.linux Hosts.machine 4096 8 Hosts.one_block = Ret 4096 p' /\
    heap p' !! 4096 = Some new /\
    take 4 new = [1; 2; 3; 4].
Proof.
  assert (H1 : 4096 <> Heap.nullptr) by (by vm_compute).
  assert (H2 : heap Hosts.one_block !! 4096 = Some [1; 2; 3; 4])
    by (by vm_compute).
  split; [exact H1|]. split; [exact H2|].
  pose proof (proj1 (xrealloc_preserves_contents
                       Hosts.linux Hosts.machine 4096 8 [1; 2; 3; 4]
                       Hosts.one_block H1 H2)) as H.
  destruct H as (p' & new & Hret & Hnew & _ & _ & Hall).
  exists new, p'. split; [exact Hret|]. split; [exact Hnew|].
  apply Hall. simpl. lia.
Defined.

(** The block the witness above speaks of does come back, with the four
    old bytes in front. *)
Example xrealloc_grow_returns :
  exists p',
    xrealloc Hosts.linux Hosts.machine 4096 8 Hosts.one_block = Ret 4096 p' /\
    heap p' !! 4096 = Some [1; 2; 3; 4; 170; 170; 170; 170].
Proof. eexists. split; by vm_compute. Qed.

(** C2: where [_WIN32] is not defined [xrealloc] calls [realloc], which
    promises the alignment of [malloc] only.  With an allocator that has
    an 8-byte size class, a block obtained from [xmalloc] and resized to
    8 bytes comes back at an address that is 8 modulo 16. *)
Theorem xrealloc_posix_misaligned :
  exists p1 p2,
    xmalloc Hosts.linux Hosts.machine_small_class 4 (start 0) = Ret 4096 p1 /\
    xrealloc Hosts.linux Hosts.machine_small_class 4096 8 p1 = Ret 4104 p2 /\
    4104 mod memalignment = 8.
Proof. eexists _, _. repeat split; by vm_compute. Qed.

(** ** Resource monitor *)

Section Monitor.

Variable t : target.
Variable os : host.

Lemma to_signed_id (w x : Z) :
  0 < w -> - 2 ^ (w - 1) <= x < 2 ^ (w - 1) -> CInt.to_signed w x = x.
Proof.
  intros Hw Hx. unfold CInt.to_signed.
  assert (H2 : 2 ^ w = 2 * 2 ^ (w - 1)).
  { rewrite <- Z.pow_succ_r by lia. f_equal. lia. }
  rewrite Z.mod_small by lia. lia.
Qed.

Lemma to_unsigned_id (w x : Z) :
  0 <= x < 2 ^ w -> CInt.to_unsigned w x = x.
Proof. intros Hx. unfold CInt.to_unsigned. by apply Z.mod_small. Qed.

Lemma int64_id (x : Z) : - 2 ^ 63 <= x < 2 ^ 63 -> CInt.int64_t x = x.
Proof. intros Hx. apply to_signed_id; simpl; lia. Qed.

Lemma uint64_id (x : Z) : 0 <= x < 2 ^ 64 -> CInt.uint64_t x = x.
Proof. apply to_unsigned_id. Qed.

Lemma long_id (x : Z) : - LONG_MAX t - 1 <= x <= LONG_MAX t -> long t x = x.
Proof.
  unfold long, LONG_MAX. destruct (_WIN32 t); intros Hx;
    apply to_signed_id; simpl; lia.
Qed.

Lemma memtotal_sysconf_fatal (p : process) :
  sysconf_build t ->
  CInt.int64_t (long t (sysconf os _SC_PHYS_PAGES)) = -1
  \/ CInt.int64_t (long t (sysconf os _SC_PAGESIZE)) = -1 ->
  arch_get_memtotal t os p = Fatal "Cannot determine amount of RAM".
Proof.
  intros (Hw & Ha & H1 & H2) H.
  unfold arch_get_memtotal. rewrite Hw, Ha, H1, H2. simpl. run_layer.
  destruct H as [-> | ->]; [reflexivity|]. by rewrite orb_true_r.
Qed.

Lemma memtotal_sysconf_ret (p : process) :
  sysconf_build t ->
  CInt.int64_t (long t (sysconf os _SC_PHYS_PAGES)) <> -1 ->
  CInt.int64_t (long t (sysconf os _SC_PAGESIZE)) <> -1 ->
  arch_get_memtotal t os p
  = Ret (CInt.uint64_t
           (CInt.int64_t
              (CInt.int64_t (long t (sysconf os _SC_PAGESIZE))
               * CInt.int64_t (long t (sysconf os _SC_PHYS_PAGES)))))
      (record (sysconf_ _SC_PAGESIZE) (record (sysconf_ _SC_PHYS_PAGES) p)).
Proof.
  intros (Hw & Ha & H1 & H2) Hp Hs.
  unfold arch_get_memtotal. rewrite Hw, Ha, H1, H2. simpl. run_layer.
  by rewrite !bool_decide_eq_false_2.
Qed.

(** With positive answers that fit, the conversions change nothing. *)
Lemma memtotal_sysconf_value (p : process) :
  sysconf_build t ->
  0 < sysconf os _SC_PHYS_PAGES -> 0 < sysconf os _SC_PAGESIZE ->
  sysconf os _SC_PHYS_PAGES * sysconf os _SC_PAGESIZE < 2 ^ 63 ->
  arch_get_memtotal t os p
  = Ret (sysconf os _SC_PHYS_PAGES * sysconf os _SC_PAGESIZE)
      (record (sysconf_ _SC_PAGESIZE) (record (sysconf_ _SC_PHYS_PAGES) p)).
Proof.
  intros Hb Hp Hs Hfit.
  assert (Hlong : LONG_MAX t = 2 ^ 63 - 1).
  { unfold LONG_MAX. by destruct Hb as [-> _]. }
  assert (sysconf os _SC_PHYS_PAGES < 2 ^ 63) by nia.
  assert (sysconf os _SC_PAGESIZE < 2 ^ 63) by nia.
  assert (Hl1 : long t (sysconf os _SC_PHYS_PAGES) = sysconf os _SC_PHYS_PAGES)
    by (apply long_id; lia).
  assert (Hl2 : long t (sysconf os _SC_PAGESIZE) = sysconf os _SC_PAGESIZE)
    by (apply long_id; lia).
  assert (Hi1 : CInt.int64_t (sysconf os _SC_PHYS_PAGES) = sysconf os _SC_PHYS_PAGES)
    by (apply int64_id; lia).
  assert (Hi2 : CInt.int64_t (sysconf os _SC_PAGESIZE) = sysconf os _SC_PAGESIZE)
    by (apply int64_id; lia).
  rewrite memtotal_sysconf_ret; [|done|..]; rewrite ?Hl1, ?Hl2, ?Hi1, ?Hi2;
    [|lia..].
  rewrite int64_id by nia. rewrite uint64_id by nia.
  f_equal. lia.
Qed.

(** C6: in the [sysconf] build [arch_get_memtotal] ends in [fatal] when
    either query answers [-1]; when both succeed it returns the page
    count times the page size; a value it returns is positive, and any
    other call in the same run returns the same value. *)
Theorem arch_get_memtotal_sysconf (p : process) :
  sysconf_build t ->
  (sysconf os _SC_PHYS_PAGES = -1 \/ sysconf os _SC_PAGESIZE = -1 ->
   arch_get_memtotal t os p = Fatal "Cannot determine amount of RAM") /\
  (sysconf_memory_ok os ->
   (sysconf os _SC_PHYS_PAGES <> -1 -> sysconf os _SC_PAGESIZE <> -1 ->
    returned (arch_get_memtotal t os p)
    = Some (sysconf os _SC_PHYS_PAGES * sysconf os _SC_PAGESIZE)) /\
   (forall v p', arch_get_memtotal t os p = Ret v p' -> 0 < v) /\
   (forall v p' p'',
      arch_get_memtotal t os p = Ret v p' ->
      returned (arch_get_memtotal t os p'') = Some v)).
Proof.
  intros Hb.
  assert (Hlong : LONG_MAX t = 2 ^ 63 - 1).
  { unfold LONG_MAX. by destruct Hb as [-> _]. }
  assert (Hm1 : CInt.int64_t (long t (-1)) = -1).
  { rewrite long_id by lia. reflexivity. }
  assert (Hfatal : forall q,
             sysconf os _SC_PHYS_PAGES = -1 \/ sysconf os _SC_PAGESIZE = -1 ->
             arch_get_memtotal t os q = Fatal "Cannot determine amount of RAM").
  { intros q H. apply memtotal_sysconf_fatal; [done|].
    destruct H as [-> | ->]; auto. }
  split; [apply Hfatal|].
  intros (Hpages & Hsize & Hfit).
  split; [|split].
  - intros Hp Hs.
    destruct Hpages as [?|Hpages]; [done|].
    destruct Hsize as [?|Hsize]; [done|].
    by rewrite memtotal_sysconf_value by auto.
  - intros v p'.
    destruct Hpages as [Hp|Hp]; [by rewrite Hfatal by auto|].
    destruct Hsize as [Hs|Hs]; [by rewrite Hfatal by auto|].
    rewrite memtotal_sysconf_value by auto.
    intros [= <- _]. nia.
  - intros v p' p''.
    destruct Hpages as [Hp|Hp]; [by rewrite Hfatal by auto|].
    destruct Hsize as [Hs|Hs]; [by rewrite Hfatal by auto|].
    rewrite !memtotal_sysconf_value by auto.
    by intros [= <- _].
Qed.

(** C7: [arch_get_memused] returns bytes whatever the unit of the
    host: the kilobytes of [ru_maxrss] times 1024 on Linux, the bytes
    of [ru_maxrss] as they are on macOS, the bytes of
    [PeakWorkingSetSize] as they are under [_WIN32] (for a peak that,
    in bytes, fits the type it is computed in). *)
Theorem arch_get_memused_bytes (p : process) :
  (_WIN32 t = false -> __APPLE__ t = false ->
   0 <= ru_maxrss os (log p) ->
   ru_maxrss os (log p) * 1024 <= LONG_MAX t ->
   returned (arch_get_memused t os p) = Some (ru_maxrss os (log p) * 1024)) /\
  (_WIN32 t = false -> __APPLE__ t = true ->
   0 <= ru_maxrss os (log p) <= LONG_MAX t ->
   returned (arch_get_memused t os p) = Some (ru_maxrss os (log p))) /\
  (_WIN32 t = true ->
   0 <= PeakWorkingSetSize os (log p) < 2 ^ 64 ->
   returned (arch_get_memused t os p) = Some (PeakWorkingSetSize os (log p))).
Proof.
  unfold arch_get_memused. run_layer.
  split; [|split]; intros Hw; rewrite Hw; simpl.
  - intros -> H0 Hmax. simpl.
    assert (Hlong : LONG_MAX t = 2 ^ 63 - 1)
      by (unfold LONG_MAX; by rewrite Hw).
    rewrite (long_id (ru_maxrss os (log p))) by lia.
    rewrite long_id by lia. rewrite uint64_id by lia. reflexivity.
  - intros -> H0. simpl.
    assert (Hlong : LONG_MAX t = 2 ^ 63 - 1)
      by (unfold LONG_MAX; by rewrite Hw).
    rewrite long_id by lia. rewrite uint64_id by lia. reflexivity.
  - intros H0. by rewrite uint64_id.
Qed.

(** On every target the value of [arch_get_memtotal] is the same at
    every point of a run: it reads constants of the host only. *)
Lemma arch_get_memtotal_stable (p p'' : process) :
  returned (arch_get_memtotal t os p)
  = returned (arch_get_memtotal t os p'').
Proof.
  unfold arch_get_memtotal. run_layer.
  destruct (_WIN32 t), (__APPLE__ t),
    (has_SC_PHYS_PAGES t && has_SC_PAGESIZE t); simpl; try reflexivity;
    repeat match goal with
           | |- context [let '(_, _) := ?x in _] => destruct x
           | |- context [if ?c then _ else _] => destruct c
           end; reflexivity.
Qed.

(** C8, as the code has it: [arch_get_cores] always returns, and what
    it returns is the count the host reports, converted to [long] and
    not checked.  A reported count from 1 to [LONG_MAX] comes back as
    it is, so the result is at least 1; the [-1] of a failed [sysconf]
    comes back as [-1]. *)
Theorem arch_get_cores_passes_count (p : process) :
  (exists p', arch_get_cores t os p = Ret (long t (reported_cores t os)) p') /\
  (1 <= reported_cores t os <= LONG_MAX t ->
   returned (arch_get_cores t os p) = Some (reported_cores t os) /\
   forall v, returned (arch_get_cores t os p) = Some v -> 1 <= v) /\
  (_WIN32 t = false -> reported_cores t os = -1 ->
   returned (arch_get_cores t os p) = Some (-1)).
Proof.
  assert (Hret : exists p',
             arch_get_cores t os p = Ret (long t (reported_cores t os)) p').
  { unfold arch_get_cores, reported_cores. run_layer.
    destruct (_WIN32 t); eexists; reflexivity. }
  destruct Hret as [p' Hret]. rewrite Hret. simpl.
  split; [eauto|]. split.
  - intros Hn. rewrite long_id by lia. split; [done|].
    intros v [= <-]. lia.
  - intros Hw ->. rewrite long_id; [done|].
    unfold LONG_MAX. rewrite Hw. lia.
Qed.

End Monitor.

Lemma arch_get_memtotal_sysconf_witness :
  sysconf_build Hosts.linux /\
  sysconf_memory_ok Hosts.machine /\
  returned (arch_get_memtotal Hosts.linux Hosts.machine (start 0))
  = Some (4194304 * 4096).
Proof.
  assert (H1 : sysconf_build Hosts.linux) by (by vm_compute).
  assert (H2 : sysconf_memory_ok Hosts.machine).
  { unfold sysconf_memory_ok. simpl. lia. }
  split; [exact H1|]. split; [exact H2|].
  apply (proj2 (arch_get_memtotal_sysconf
                  Hosts.linux Hosts.machine (start 0) H1) H2);
    simpl; lia.
Defined.

Lemma arch_get_memused_bytes_witness :
  _WIN32 Hosts.linux = false /\
  __APPLE__ Hosts.linux = false /\
  0 <= ru_maxrss Hosts.machine (log (start 0)) /\
  ru_maxrss Hosts.machine (log (start 0)) * 1024 <= LONG_MAX Hosts.linux /\
  returned (arch_get_memused Hosts.linux Hosts.machine (start 0))
  = Some (51200 * 1024).
Proof.
  assert (H1 : _WIN32 Hosts.linux = false) by reflexivity.
  assert (H2 : __APPLE__ Hosts.linux = false) by reflexivity.
  assert (H3 : 0 <= ru_maxrss Hosts.machine (log (start 0))) by (simpl; lia).
  assert (H4 : ru_maxrss Hosts.machine (log (start 0)) * 1024
               <= LONG_MAX Hosts.linux) by (by vm_compute).
  repeat (split; [assumption|]).
  exact (proj1 (arch_get_memused_bytes
                  Hosts.linux Hosts.machine (start 0)) H1 H2 H3 H4).
Defined.

(** C8, as the claim has it, fails: when [sysconf] cannot tell the number
    of processors, [arch_get_cores] returns its [-1]. *)
Lemma arch_get_cores_not_always_positive :
  ~ (forall (t : target) (os : host) (p : process) (v : Z),
       returned (arch_get_cores t os p) = Some v -> 1 <= v).
Proof.
  intros H.
  specialize (H Hosts.linux Hosts.machine_no_cpu_count (start 0) (-1)
                eq_refl).
  lia.
Qed.

Lemma arch_get_cores_passes_count_witness :
  1 <= reported_cores Hosts.linux Hosts.machine <= LONG_MAX Hosts.linux /\
  returned (arch_get_cores Hosts.linux Hosts.machine (start 0)) = Some 8.
Proof.
  assert (H : 1 <= reported_cores Hosts.linux Hosts.machine
              <= LONG_MAX Hosts.linux) by (by vm_compute).
  split; [exact H|].
  exact (proj1 (proj1 (proj2 (arch_get_cores_passes_count
                                Hosts.linux Hosts.machine (start 0))) H)).
Defined.

(** ** File primitives *)

Section Files.

Variable t : target.
Variable os : host.

Lemma minus_one_as_uint64 : CInt.uint64_t (CInt.int64_t (-1)) = CInt.UINT64_MAX.
Proof. reflexivity. Qed.

Lemma uint64_range (x : Z) : 0 <= CInt.uint64_t x <= CInt.UINT64_MAX.
Proof.
  unfold CInt.uint64_t, CInt.to_unsigned, CInt.UINT64_MAX.
  pose proof (Z.mod_pos_bound x (2 ^ 64) ltac:(lia)). lia.
Qed.

(** C9: when the underlying call fails (answers [-1]) each file
    primitive returns to its caller, never through [fatal], and hands
    over the indicator: [-1] from the four that return [int], and its
    conversion to [uint64_t], a non-zero value, from [xlseek] and
    [xftello]. *)
Theorem file_primitives_return_os_error (p : process) :
  (forall path,
     host_open os (log p) path
       (if _WIN32 t then [O_RDONLY; O_BINARY] else [O_RDONLY]) [] = -1 ->
     returned (xopen_read t os path p) = Some (-1)) /\
  (forall path,
     host_open os (log p) path
       (if _WIN32 t then [O_WRONLY; O_CREAT; O_TRUNC; O_BINARY]
        else [O_WRONLY; O_CREAT; O_TRUNC]) [S_IRUSR; S_IWUSR] = -1 ->
     returned (xopen_write t os path p) = Some (-1)) /\
  (forall path buf,
     (host_stat os (log p) path buf).1 = -1 ->
     fst <$> returned (xstat t os path buf p) = Some (-1)) /\
  (forall fd buf,
     (host_fstat os (log p) fd buf).1 = -1 ->
     fst <$> returned (xfstat t os fd buf p) = Some (-1)) /\
  (forall fd offset whence,
     host_lseek os (log p) fd (CInt.int64_t offset) whence = -1 ->
     returned (xlseek t os fd offset whence p)
     = Some (CInt.uint64_t (-1)) /\
     CInt.uint64_t (-1) <> 0) /\
  (forall stream,
     host_ftello os (log p) stream = -1 ->
     returned (xftello t os stream p) = Some (CInt.uint64_t (-1)) /\
     CInt.uint64_t (-1) <> 0).
Proof.
  unfold xopen_read, xopen_write, xstat, xfstat, xlseek, xftello.
  run_layer. simpl. split; [|split; [|split; [|split; [|split]]]].
  - intros path ->. reflexivity.
  - intros path ->. reflexivity.
  - intros path buf. destruct (host_stat os (log p) path buf) as [rc b].
    simpl. intros ->. reflexivity.
  - intros fd buf. destruct (host_fstat os (log p) fd buf) as [rc b].
    simpl. intros ->. reflexivity.
  - intros fd offset whence ->. split; [reflexivity|done].
  - intros stream ->. split; [reflexivity|done].
Qed.

(** No file primitive ever ends in [fatal], whatever the host answers. *)
Lemma file_primitives_never_fatal (p : process)
  (path : string) (buf : xstat_t) (fd offset whence stream : Z) :
  is_fatal (xopen_read t os path p) = false /\
  is_fatal (xopen_write t os path p) = false /\
  is_fatal (xstat t os path buf p) = false /\
  is_fatal (xfstat t os fd buf p) = false /\
  is_fatal (xlseek t os fd offset whence p) = false /\
  is_fatal (xftello t os stream p) = false.
Proof.
  unfold xopen_read, xopen_write, xstat, xfstat, xlseek, xftello.
  run_layer. simpl.
  destruct (host_stat os (log p) path buf), (host_fstat os (log p) fd buf).
  repeat split.
Qed.

(** C10: when the underlying seek or tell fails, the caller of [xlseek]
    or [xftello] receives [2^64 - 1]; no value they return is negative,
    so a test for a negative result never sees the failure. *)
Theorem xlseek_xftello_failure_is_uint64_max
  (p : process) (fd offset whence stream : Z) :
  (host_lseek os (log p) fd (CInt.int64_t offset) whence = -1 ->
   returned (xlseek t os fd offset whence p) = Some (2 ^ 64 - 1)) /\
  (host_ftello os (log p) stream = -1 ->
   returned (xftello t os stream p) = Some (2 ^ 64 - 1)) /\
  (forall v, returned (xlseek t os fd offset whence p) = Some v ->
             ~ v < 0) /\
  (forall v, returned (xftello t os stream p) = Some v -> ~ v < 0).
Proof.
  unfold xlseek, xftello. run_layer. simpl. repeat split.
  - intros ->. reflexivity.
  - intros ->. reflexivity.
  - intros v [= <-]. pose proof (uint64_range
      (CInt.int64_t (host_lseek os (log p) fd (CInt.int64_t offset) whence))).
    lia.
  - intros v [= <-]. pose proof (uint64_range
      (CInt.int64_t (host_ftello os (log p) stream))).
    lia.
Qed.

End Files.

Lemma file_primitives_return_os_error_witness :
  host_open Hosts.machine (log (start 0)) "/missing" [O_RDONLY] [] = -1 /\
  returned (xopen_read Hosts.linux Hosts.machine "/missing" (start 0))
  = Some (-1).
Proof.
  assert (H : host_open Hosts.machine (log (start 0)) "/missing"
                [O_RDONLY] [] = -1) by reflexivity.
  split; [exact H|].
  exact (proj1 (file_primitives_return_os_error
                  Hosts.linux Hosts.machine (start 0)) "/missing" H).
Defined.

Lemma xlseek_xftello_failure_is_uint64_max_witness :
  host_lseek Hosts.machine (log (start 0)) 4 (CInt.int64_t 0) 0 = -1 /\
  returned (xlseek Hosts.linux Hosts.machine 4 0 0 (start 0))
  = Some 18446744073709551615.
Proof.
  assert (H : host_lseek Hosts.machine (log (start 0)) 4 (CInt.int64_t 0) 0
              = -1) by reflexivity.
  split; [exact H|].
  exact (proj1 (xlseek_xftello_failure_is_uint64_max
                  Hosts.linux Hosts.machine (start 0) 4 0 0 0) H).
Defined.

(** * Further properties of the layer *)

(** ** What a returning allocator call did *)

Section AllocatorSteps.

Variable t : target.
Variable os : host.

Lemma at_least_one_pos (size : Z) : 0 <= size -> 0 < at_least_one size.
Proof. unfold at_least_one. destruct (decide (size = 0)); lia. Qed.

Lemma xmalloc_inv (size a : Z) (p p' : process) :
  xmalloc t os size p = Ret a p' ->
  Heap.allocate os (heap p) memalignment (at_least_one size) = Some a /\
  heap p' = <[a := Heap.fresh os 0 (Z.to_nat (at_least_one size))]> (heap p) /\
  generator p' = generator p /\
  log p' = (if _WIN32 t
            then aligned_malloc_ (at_least_one size) memalignment
            else posix_memalign_ memalignment (at_least_one size)) :: log p.
Proof.
  unfold xmalloc, xmalloc_platform, _aligned_malloc, posix_memalign,
    Heap.alloc, at_least_one.
  run_layer.
  destruct (_WIN32 t);
    destruct (Heap.allocate os (heap p) memalignment _) as [addr|] eqn:Ha;
    simpl; try done.
  - destruct (decide (addr = Heap.nullptr)); [done|].
    by intros [= <- <-].
  - destruct (decide (addr = Heap.nullptr)); simpl; [done|].
    destruct (decide (addr = Heap.nullptr)); [done|].
    by intros [= <- <-].
Qed.

Lemma xrealloc_inv (ptr size q : Z) (p p' : process) :
  xrealloc t os ptr size p = Ret q p' ->
  generator p' = generator p /\
  log p' = (if _WIN32 t
            then aligned_realloc_ ptr (at_least_one size) memalignment
            else realloc_ ptr (at_least_one size)) :: log p /\
  (ptr = Heap.nullptr /\
   Heap.allocate os (heap p) (realloc_alignment t os) (at_least_one size)
   = Some q /\
   heap p' = <[q := Heap.fresh os 0 (Z.to_nat (at_least_one size))]> (heap p)
   \/
   ptr <> Heap.nullptr /\
   exists old,
     heap p !! ptr = Some old /\
     Heap.allocate os (delete ptr (heap p)) (realloc_alignment t os)
       (at_least_one size) = Some q /\
     heap p' = <[q := Heap.resize os old (at_least_one size)]>
                 (delete ptr (heap p))).
Proof.
  unfold xrealloc, xrealloc_platform, _aligned_realloc, realloc,
    Heap.realloc, Heap.alloc, realloc_alignment, at_least_one.
  run_layer.
  destruct (_WIN32 t); destruct (decide (ptr = Heap.nullptr)) as [Hp|Hp].
  - destruct (Heap.allocate os (heap p) memalignment _) as [addr|] eqn:Ha;
      simpl; [|done].
    destruct (decide (addr = Heap.nullptr)); [done|].
    intros [= <- <-]. simpl. repeat split; try done. left. done.
  - destruct (heap p !! ptr) as [old|] eqn:Hold; [|done].
    destruct (Heap.allocate os (delete ptr (heap p)) memalignment _)
      as [addr|] eqn:Ha; simpl; [|done].
    destruct (decide (addr = Heap.nullptr)); [done|].
    intros [= <- <-]. simpl. repeat split; try done. right. eauto.
  - destruct (Heap.allocate os (heap p) (malloc_alignment os) _)
      as [addr|] eqn:Ha; simpl; [|done].
    destruct (decide (addr = Heap.nullptr)); [done|].
    intros [= <- <-]. simpl. repeat split; try done. left. done.
  - destruct (heap p !! ptr) as [old|] eqn:Hold; [|done].
    destruct (Heap.allocate os (delete ptr (heap p)) (malloc_alignment os) _)
      as [addr|] eqn:Ha; simpl; [|done].
    destruct (decide (addr = Heap.nullptr)); [done|].
    intros [= <- <-]. simpl. repeat split; try done. right. eauto.
Qed.

Lemma xfree_inv (ptr : Z) (p p' : process) :
  xfree t ptr p = Ret tt p' ->
  ptr <> Heap.nullptr /\ is_Some (heap p !! ptr) /\
  heap p' = delete ptr (heap p) /\
  generator p' = generator p.
Proof.
  unfold xfree, _aligned_free, free, Heap.free.
  destruct (decide (ptr <> Heap.nullptr)); [|done].
  destruct (_WIN32 t); destruct (decide (ptr = Heap.nullptr)); try done;
    destruct (heap p !! ptr) eqn:Hb; try done;
    intros [= <-]; eauto.
Qed.

(** An address the allocator hands out in a heap that is [heap_ok] is
    not the address of a live block, and the new block overlaps none. *)
Lemma allocate_fresh (h : gmap Z (list Z)) (alignment size addr : Z) :
  heap_ok h -> 0 < size ->
  Heap.allocate os h alignment size = Some addr ->
  h !! addr = None /\ 0 < addr /\ addr mod alignment = 0 /\
  forall a b, h !! a = Some b ->
              addr + size <= a \/ a + Z.of_nat (length b) <= addr.
Proof.
  intros [Hblocks _] Hsize. unfold Heap.allocate, Heap.disjoint.
  destruct (place os h alignment size) as [z|]; [|done].
  destruct (bool_decide (0 < z)) eqn:H1; [|done].
  destruct (bool_decide (z mod alignment = 0)) eqn:H2; [|done].
  destruct (bool_decide (map_Forall _ h)) eqn:H3; [|done].
  intros [= <-].
  apply bool_decide_eq_true in H1, H2, H3.
  assert (Hd : forall a b, h !! a = Some b ->
                 z + size <= a \/ a + Z.of_nat (length b) <= z)
    by (intros a b Hab; exact (H3 a b Hab)).
  repeat split; try done.
  destruct (h !! z) as [b|] eqn:Hz; [|done].
  destruct (Hblocks z b Hz) as [_ Hlen]. destruct (Hd z b Hz); lia.
Qed.

Lemma heap_ok_insert (h : gmap Z (list Z)) (addr : Z) (b : list Z) :
  heap_ok h -> 0 < addr -> (0 < length b)%nat ->
  (forall a b', h !! a = Some b' ->
                addr + Z.of_nat (length b) <= a
                \/ a + Z.of_nat (length b') <= addr) ->
  heap_ok (<[addr := b]> h).
Proof.
  intros [Hblocks Hsep] Haddr Hlen Hd. split.
  - apply map_Forall_insert_2; done.
  - intros a1 b1 a2 b2 H1 H2 Hne.
    rewrite lookup_insert in H1, H2.
    destruct (decide (addr = a1)) as [<-|], (decide (addr = a2)) as [<-|];
      simplify_eq.
    + by apply Hd.
    + destruct (Hd _ _ H1); lia.
    + by eapply Hsep.
Qed.

Lemma heap_ok_delete (h : gmap Z (list Z)) (a : Z) :
  heap_ok h -> heap_ok (delete a h).
Proof.
  intros [Hblocks Hsep]. split.
  - intros a' b Hab. apply lookup_delete_Some in Hab as [_ Hab].
    by apply Hblocks.
  - intros a1 b1 a2 b2 H1 H2 Hne.
    apply lookup_delete_Some in H1 as [_ H1], H2 as [_ H2].
    by eapply Hsep.
Qed.

Lemma fresh_length (from count : nat) :
  length (Heap.fresh os from count) = count.
Proof. unfold Heap.fresh. by rewrite length_fmap, length_seq. Qed.

End AllocatorSteps.

(** ** Allocator: blocks, alignment, composition *)

Section AllocatorMore.

Variable t : target.
Variable os : host.

(** [xmalloc] returns the address of a new block of [max size 1] bytes,
    at a non-null multiple of [memalignment], on every target. *)
Theorem xmalloc_gives_aligned_block (size a : Z) (p p' : process) :
  0 <= size ->
  xmalloc t os size p = Ret a p' ->
  0 < a /\ a mod memalignment = 0 /\
  exists b, heap p' !! a = Some b /\ Z.of_nat (length b) = Z.max size 1.
Proof.
  intros Hsize Hret. apply xmalloc_inv in Hret as (Ha & Hh & _).
  apply allocate_spec in Ha as [Hpos Hal].
  split; [done|]. split; [done|].
  eexists. rewrite Hh, lookup_insert_eq. split; [done|].
  rewrite fresh_length. unfold at_least_one.
  destruct (decide (size = 0)); lia.
Qed.

(** [xrealloc] returns a multiple of [memalignment] where
    [_aligned_realloc] is used, and elsewhere when the alignment the C
    library's [realloc] works to is itself a multiple of it. *)
Theorem xrealloc_aligned_when_library_is
  (ptr size q : Z) (p p' : process) :
  (_WIN32 t = true \/ (memalignment | malloc_alignment os)) ->
  xrealloc t os ptr size p = Ret q p' ->
  q mod memalignment = 0.
Proof.
  intros Hlib Hret. apply xrealloc_inv in Hret as (_ & _ & Hcase).
  assert (Hq : q mod realloc_alignment t os = 0).
  { destruct Hcase as [(_ & Ha & _)|(_ & old & _ & Ha & _)];
      by apply allocate_spec in Ha as [_ ?]. }
  assert (Hdiv : (memalignment | realloc_alignment t os)).
  { unfold realloc_alignment. destruct Hlib as [-> | Hd]; [done|].
    destruct (_WIN32 t); [done|exact Hd]. }
  apply Z.mod_divide; [done|].
  destruct (decide (realloc_alignment t os = 0)) as [H0|H0].
  - rewrite H0, Z.mod_0_r in Hq. subst q. apply Z.divide_0_r.
  - etrans; [exact Hdiv|]. by apply Z.mod_divide.
Qed.

(** A block obtained from [xmalloc] can be given back to [xfree] at
    once, and the heap is then what it was before the two calls. *)
Theorem xmalloc_xfree_round_trip (size a : Z) (p p1 : process) :
  heap_ok (heap p) -> 0 <= size ->
  xmalloc t os size p = Ret a p1 ->
  exists p2, xfree t a p1 = Ret tt p2 /\ heap p2 = heap p.
Proof.
  intros Hok Hsize Hret. apply xmalloc_inv in Hret as (Ha & Hh & _).
  apply allocate_fresh in Ha as (Hnone & Hpos & _);
    [|done|by apply at_least_one_pos].
  unfold xfree, _aligned_free, free, Heap.free.
  destruct (decide (a <> Heap.nullptr)) as [_|Hn];
    [|exfalso; apply Hn; unfold Heap.nullptr; lia].
  assert (Hlive : heap p1 !! a
                  = Some (Heap.fresh os 0 (Z.to_nat (at_least_one size))))
    by (by rewrite Hh, lookup_insert_eq).
  assert (Hback : delete a (heap p1) = heap p)
    by (rewrite Hh; by apply delete_insert_id).
  destruct (_WIN32 t); destruct (decide (a = Heap.nullptr));
    try (unfold Heap.nullptr in *; lia);
    rewrite Hlive; eexists; (split; [reflexivity|]); simpl; exact Hback.
Qed.

(** [xmalloc] leaves every live block where and as it was, and the new
    block overlaps none of them. *)
Theorem xmalloc_keeps_live_blocks
  (size a a' : Z) (b : list Z) (p p' : process) :
  heap_ok (heap p) -> 0 <= size ->
  xmalloc t os size p = Ret a p' ->
  heap p !! a' = Some b ->
  heap p' !! a' = Some b /\
  (a + Z.max size 1 <= a' \/ a' + Z.of_nat (length b) <= a).
Proof.
  intros Hok Hsize Hret Hlive. apply xmalloc_inv in Hret as (Ha & Hh & _).
  apply allocate_fresh in Ha as (Hnone & _ & _ & Hd);
    [|done|by apply at_least_one_pos].
  split.
  - rewrite Hh, lookup_insert_ne; [done|]. intros ->. congruence.
  - specialize (Hd a' b Hlive). unfold at_least_one in Hd.
    destruct (decide (size = 0)); lia.
Qed.

(** [xrealloc] of a live block leaves every other live block where and
    as it was; when the block moved, its old address is live no more. *)
Theorem xrealloc_keeps_other_blocks
  (ptr size q : Z) (p p' : process) :
  heap_ok (heap p) -> 0 <= size ->
  xrealloc t os ptr size p = Ret q p' ->
  (forall a' b, a' <> ptr -> heap p !! a' = Some b ->
                heap p' !! a' = Some b) /\
  (ptr <> Heap.nullptr -> q <> ptr -> heap p' !! ptr = None).
Proof.
  intros Hok Hsize Hret. apply xrealloc_inv in Hret as (_ & _ & Hcase).
  destruct Hcase as [(-> & Ha & Hh)|(Hp & old & Hold & Ha & Hh)].
  - apply allocate_fresh in Ha as (Hnone & _);
      [|done|by apply at_least_one_pos].
    split; [|done]. intros a' b _ Hlive.
    rewrite Hh, lookup_insert_ne; [done|]. intros ->. congruence.
  - apply allocate_fresh in Ha as (Hnone & _);
      [|by apply heap_ok_delete|by apply at_least_one_pos].
    split.
    + intros a' b Hne Hlive.
      assert (Hd : delete ptr (heap p) !! a' = Some b)
        by (by rewrite lookup_delete_ne).
      rewrite Hh, lookup_insert_ne; [done|]. intros ->. congruence.
    + intros _ Hq. rewrite Hh, lookup_insert_ne by done.
      apply lookup_delete_eq.
Qed.

(** [xrealloc] does not turn the null pointer away as [xfree] does: it
    hands it to the reallocation call, which then allocates.  When that
    allocation fails [xrealloc] ends in [fatal] with the message of a
    failed reallocation; when it gives an address, [xrealloc] returns
    it, and there is a new block of [max size 1] bytes, the live blocks
    being what they were. *)
Theorem xrealloc_null_allocates (size : Z) (p : process) :
  0 <= size ->
  match Heap.allocate os (heap p) (realloc_alignment t os)
          (at_least_one size) with
  | None =>
      xrealloc t os Heap.nullptr size p
      = Fatal "Unable to reallocate enough memory."
  | Some q =>
      exists p' b,
        xrealloc t os Heap.nullptr size p = Ret q p' /\
        heap p' = <[q := b]> (heap p) /\
        Z.of_nat (length b) = Z.max size 1
  end.
Proof.
  intros Hsize.
  unfold xrealloc, xrealloc_platform, _aligned_realloc, realloc,
    Heap.realloc, Heap.alloc, realloc_alignment, at_least_one.
  run_layer. destruct (decide (Heap.nullptr = Heap.nullptr)); [|done].
  assert (Hlen : forall from,
             Z.of_nat (length (Heap.fresh os from
                                 (Z.to_nat (if decide (size = 0) then 1 else size))))
             = Z.max size 1).
  { intros from. rewrite fresh_length. destruct (decide (size = 0)); lia. }
  destruct (_WIN32 t).
  - destruct (Heap.allocate os (heap p) memalignment _) as [addr|] eqn:Ha;
      simpl; [|done].
    apply allocate_spec in Ha as [Hpos _].
    destruct (decide (addr = Heap.nullptr));
      [unfold Heap.nullptr in *; lia|].
    eexists _, _. split; [reflexivity|]. simpl. split; [done|]. apply Hlen.
  - destruct (Heap.allocate os (heap p) (malloc_alignment os) _)
      as [addr|] eqn:Ha; simpl; [|done].
    apply allocate_spec in Ha as [Hpos _].
    destruct (decide (addr = Heap.nullptr));
      [unfold Heap.nullptr in *; lia|].
    eexists _, _. split; [reflexivity|]. simpl. split; [done|]. apply Hlen.
Qed.

(** A pointer given to [xfree] is dead: a second [xfree] of it has no
    defined behaviour (it is not reported through [fatal]). *)
Theorem xfree_twice_undefined (ptr : Z) (p p' : process) :
  xfree t ptr p = Ret tt p' ->
  xfree t ptr p' = Undefined.
Proof.
  intros Hret. apply xfree_inv in Hret as (Hp & _ & Hh & _).
  unfold xfree, _aligned_free, free, Heap.free.
  destruct (decide (ptr <> Heap.nullptr)); [|done].
  destruct (_WIN32 t); destruct (decide (ptr = Heap.nullptr)); try done;
    by rewrite Hh, lookup_delete_eq.
Qed.

End AllocatorMore.

(** ** Entropy source: what seeding does and does not do *)

Section EntropyMore.

Variable t : target.
Variable os : host.

(** Outside [_WIN32], [arch_srandom] with a non-zero configured seed
    changes nothing and calls nothing: the engine it constructs is gone
    when it returns. *)
Theorem arch_srandom_posix_nonzero_is_noop (p : process) :
  _WIN32 t = false ->
  CInt.uint32_t (opt_randseed p) <> 0 ->
  arch_srandom t os p = Ret tt p.
Proof.
  intros Hw Hseed. unfold arch_srandom. rewrite Hw.
  by destruct (decide (CInt.uint32_t (opt_randseed p) = 0)).
Qed.

(** Under [_WIN32], [arch_srandom] seeds the C library's [rand]: with
    the configured seed when it is not zero, with the time otherwise. *)
Theorem arch_srandom_win32_seeds_crt (p : process) :
  _WIN32 t = true ->
  exists p',
    arch_srandom t os p = Ret tt p' /\
    crt_seed p' = (if decide (CInt.uint32_t (opt_randseed p) = 0)
                   then CInt.uint32_t (time os)
                   else CInt.uint32_t (opt_randseed p)) /\
    heap p' = heap p /\ generator p' = generator p.
Proof.
  intros Hw. unfold arch_srandom, srand. rewrite Hw. run_layer.
  destruct (decide (CInt.uint32_t (opt_randseed p) = 0));
    eexists; repeat split.
Qed.

(** [arch_srandom] ends the process in one case only: the configured
    seed is zero, the target is not [_WIN32] and [std::random_device]
    throws.  Whenever it returns, at any point of a run, the values the
    following calls of [arch_random] return are those they would have
    returned without it. *)
Theorem arch_srandom_never_reseeds (count : nat) (p : process) :
  (arch_srandom t os p = Terminated <->
   CInt.uint32_t (opt_randseed p) = 0 /\ _WIN32 t = false /\
   random_device os = None) /\
  (seeding_returns t os (opt_randseed p) ->
   exists p', arch_srandom t os p = Ret tt p') /\
  (forall p',
     arch_srandom t os p = Ret tt p' ->
     exists values,
       returned (draws os count p') = Some values /\
       returned (draws os count p) = Some values).
Proof.
  split; [|split].
  - unfold arch_srandom, srand, uncaught. run_layer.
    destruct (decide _) as [Hz|Hz], (_WIN32 t); simpl;
      try destruct (random_device os); simpl;
      (split; [try done; by intros ? | by intros (? & ? & ?)]).
  - apply arch_srandom_returns.
  - intros p' Hp'. apply arch_srandom_generator in Hp' as [Hg _].
    destruct (draws_from os count p') as [p1 ->].
    destruct (draws_from os count p) as [p2 ->].
    rewrite Hg. eauto.
Qed.

End EntropyMore.

(** ** Runs of calls *)

Section Runs.

Variable t : target.
Variable os : host.

(** What one returning call did to the heap and the engine. *)
Lemma perform_step (r : request) (p p' : process) :
  perform t os r p = Ret tt p' ->
  match r with
  | call_xmalloc size => exists a, xmalloc t os size p = Ret a p'
  | call_xrealloc ptr size => exists q, xrealloc t os ptr size p = Ret q p'
  | call_xfree ptr => xfree t ptr p = Ret tt p'
  | call_arch_random =>
      heap p' = heap p /\
      generator p'
      = Some (uniform_int_distribution os
                (default (MT19937.seed 42) (generator p))).2
  | _ => heap p' = heap p /\ generator p' = generator p
  end.
Proof.
  destruct r; simpl; run_layer.
  - unfold arch_get_memused. run_layer.
    destruct (_WIN32 t), (__APPLE__ t); simpl; by intros [= <-].
  - unfold arch_get_memtotal. run_layer.
    destruct (_WIN32 t), (__APPLE__ t),
      (has_SC_PHYS_PAGES t && has_SC_PAGESIZE t); simpl;
      repeat match goal with
             | |- context [let '(_, _) := ?x in _] => destruct x
             | |- context [if ?c then _ else _] => destruct c
             end; simpl; try done; by intros [= <-].
  - unfold arch_get_cores. run_layer.
    destruct (_WIN32 t); simpl; by intros [= <-].
  - intros H. by apply arch_srandom_generator in H as [? ?].
  - unfold arch_random.
    destruct (generator p) as [g|]; simpl;
      destruct (uniform_int_distribution os _) as [v g']; simpl;
      by intros [= <-].
  - destruct (xmalloc t os size p) as [a p1| | |]; [|done..].
    intros [= <-]. eauto.
  - destruct (xrealloc t os ptr size p) as [a p1| | |]; [|done..].
    intros [= <-]. eauto.
  - done.
  - unfold xfstat. run_layer. destruct (host_fstat os _ _ _).
    by intros [= <-].
  - unfold xstat. run_layer. destruct (host_stat os _ _ _).
    by intros [= <-].
  - unfold xlseek. run_layer. destruct (_WIN32 t); by intros [= <-].
  - unfold xftello. run_layer. destruct (_WIN32 t); by intros [= <-].
  - unfold xopen_read. run_layer. by intros [= <-].
  - unfold xopen_write. run_layer. by intros [= <-].
Qed.

Lemma perform_engine (r : request) (p p' : process) :
  perform t os r p = Ret tt p' ->
  default (MT19937.seed 42) (generator p')
  = engine_after (uniform_int_distribution os)
      (if is_draw r then 1 else 0)
      (default (MT19937.seed 42) (generator p)).
Proof.
  intros H. apply perform_step in H. destruct r; simpl in *;
    try lazymatch type of H with
        | _ /\ _ => destruct H as [_ Hg]; by rewrite Hg
        end.
  - destruct H as [a H]. by apply xmalloc_inv in H as (_ & _ & -> & _).
  - destruct H as [q H]. by apply xrealloc_inv in H as (-> & _).
  - by apply xfree_inv in H as (_ & _ & _ & ->).
Qed.

Lemma count_draws_cons (r : request) (rs : list request) :
  count_draws (r :: rs)
  = ((if is_draw r then 1 else 0) + count_draws rs)%nat.
Proof.
  unfold count_draws. rewrite filter_cons.
  destruct (decide (is_draw r = true)) as [->|Hr]; [done|].
  by destruct (is_draw r).
Qed.

Lemma perform_all_engine (rs : list request) :
  forall p p',
    perform_all t os rs p = Ret tt p' ->
    default (MT19937.seed 42) (generator p')
    = engine_after (uniform_int_distribution os) (count_draws rs)
        (default (MT19937.seed 42) (generator p)).
Proof.
  induction rs as [|r rs IH]; intros p p'; simpl.
  - by intros [= <-].
  - run_layer. destruct (perform t os r p) as [[] p1| | |] eqn:Hr; [|done..].
    intros Hrs. apply IH in Hrs. apply perform_engine in Hr.
    rewrite Hrs, Hr, count_draws_cons. unfold engine_after.
    by rewrite Nat.add_comm, Nat.iter_add.
Qed.

End Runs.

Section RunInvariants.

Variable t : target.
Variable os : host.

Lemma arch_random_value (p : process) :
  returned (arch_random os p)
  = Some (CInt.uint64_t
            (uniform_int_distribution os
               (default (MT19937.seed 42) (generator p))).1).
Proof.
  unfold arch_random.
  destruct (generator p); simpl;
    by destruct (uniform_int_distribution os _).
Qed.

(** Whatever calls a run made, if it returned, the heap is still
    [heap_ok]: positive addresses, no empty block, no overlap. *)
Theorem run_keeps_heap_ok (rs : list request) :
  forall p p',
    heap_ok (heap p) ->
    Forall sizes_ok rs ->
    perform_all t os rs p = Ret tt p' ->
    heap_ok (heap p').
Proof.
  induction rs as [|r rs IH]; intros p p' Hok Hsizes; simpl.
  - by intros [= <-].
  - run_layer. destruct (perform t os r p) as [[] p1| | |] eqn:Hr; [|done..].
    apply Forall_cons in Hsizes as [Hsize Hsizes].
    apply IH; [|done]. clear IH Hsizes.
    apply perform_step in Hr. destruct r; simpl in *;
      try lazymatch type of Hr with
          | _ /\ _ => destruct Hr as [Hh _]; by rewrite Hh
          end.
    + destruct Hr as [a Hr]. apply xmalloc_inv in Hr as (Ha & -> & _).
      pose proof (at_least_one_pos size Hsize) as Hpos.
      apply (allocate_fresh os) in Ha as (_ & Haddr & _ & Hd); [|done..].
      apply heap_ok_insert; [done..| |].
      * rewrite fresh_length. lia.
      * intros a' b' Hb'. rewrite fresh_length, Z2Nat.id by lia. eauto.
    + destruct Hr as [q Hr]. apply xrealloc_inv in Hr as (_ & _ & Hcase).
      pose proof (at_least_one_pos size Hsize) as Hpos.
      destruct Hcase as [(_ & Ha & ->)|(_ & old & _ & Ha & ->)].
      * apply (allocate_fresh os) in Ha as (_ & Haddr & _ & Hd); [|done..].
        apply heap_ok_insert; [done..| |].
        -- rewrite fresh_length. lia.
        -- intros a' b' Hb'. rewrite fresh_length, Z2Nat.id by lia. eauto.
      * apply (allocate_fresh os) in Ha as (_ & Haddr & _ & Hd);
          [|by apply heap_ok_delete|done].
        apply heap_ok_insert; [by apply heap_ok_delete|done| |].
        -- rewrite resize_length. lia.
        -- intros a' b' Hb'. rewrite resize_length, Z2Nat.id by lia. eauto.
    + apply xfree_inv in Hr as (_ & _ & -> & _). by apply heap_ok_delete.
Qed.

(** Where the reallocation call works to a multiple of [memalignment],
    every live block of a run starts at a multiple of [memalignment],
    whatever calls the run made. *)
Theorem run_keeps_heap_aligned (rs : list request) :
  (memalignment | realloc_alignment t os) ->
  forall p p',
    heap_aligned (heap p) ->
    perform_all t os rs p = Ret tt p' ->
    heap_aligned (heap p').
Proof.
  intros Hdiv.
  assert (Hal : forall q, q mod realloc_alignment t os = 0 ->
                          q mod memalignment = 0).
  { intros q Hq. apply Z.mod_divide; [done|].
    destruct (decide (realloc_alignment t os = 0)) as [H0|H0].
    - rewrite H0, Z.mod_0_r in Hq. subst q. apply Z.divide_0_r.
    - etrans; [exact Hdiv|]. by apply Z.mod_divide. }
  induction rs as [|r rs IH]; intros p p' Hok; simpl.
  - by intros [= <-].
  - run_layer. destruct (perform t os r p) as [[] p1| | |] eqn:Hr; [|done..].
    apply IH. clear IH.
    apply perform_step in Hr. destruct r; simpl in *;
      try lazymatch type of Hr with
          | _ /\ _ => destruct Hr as [Hh _]; by rewrite Hh
          end.
    + destruct Hr as [a Hr]. apply xmalloc_inv in Hr as (Ha & -> & _).
      apply allocate_spec in Ha as [_ Ha].
      by apply map_Forall_insert_2.
    + destruct Hr as [q Hr]. apply xrealloc_inv in Hr as (_ & _ & Hcase).
      destruct Hcase as [(_ & Ha & ->)|(_ & old & _ & Ha & ->)];
        apply allocate_spec in Ha as [_ Ha];
        apply map_Forall_insert_2; auto.
      by apply map_Forall_delete.
    + apply xfree_inv in Hr as (_ & _ & -> & _). by apply map_Forall_delete.
Qed.

End RunInvariants.

(** The value a call of [arch_random] returns depends on how many calls
    of [arch_random] the run made before it, and on nothing else: not on
    the configured seed, the target, the answers of the host or the
    other calls made in between. *)
Theorem draw_depends_only_on_count
  (t1 t2 : target) (os1 os2 : host) (seed1 seed2 : Z)
  (rs1 rs2 : list request) (p1 p2 : process) :
  uniform_int_distribution os1 = uniform_int_distribution os2 ->
  count_draws rs1 = count_draws rs2 ->
  perform_all t1 os1 rs1 (start seed1) = Ret tt p1 ->
  perform_all t2 os2 rs2 (start seed2) = Ret tt p2 ->
  returned (arch_random os1 p1) = returned (arch_random os2 p2).
Proof.
  intros Hd Hcount H1 H2.
  apply perform_all_engine in H1, H2.
  by rewrite !arch_random_value, H1, H2, Hd, Hcount.
Qed.

(** ** Resource monitor: the other builds of [arch_get_memtotal] *)

Section MonitorMore.

Variable t : target.
Variable os : host.

Lemma to_signed_range (w x : Z) :
  0 < w -> - 2 ^ (w - 1) <= CInt.to_signed w x < 2 ^ (w - 1).
Proof.
  intros Hw. unfold CInt.to_signed.
  assert (H2 : 2 ^ w = 2 * 2 ^ (w - 1)).
  { rewrite <- Z.pow_succ_r by lia. f_equal. lia. }
  assert (0 < 2 ^ (w - 1)) by (apply Z.pow_pos_nonneg; lia).
  pose proof (Z.mod_pos_bound (x + 2 ^ (w - 1)) (2 ^ w) ltac:(lia)). lia.
Qed.

Lemma int64_of_long (x : Z) :
  _WIN32 t = false -> CInt.int64_t (long t x) = long t x.
Proof.
  intros Hw. unfold long. rewrite Hw. apply int64_id.
  pose proof (to_signed_range 64 x ltac:(lia)). simpl in *. lia.
Qed.

(** [arch_get_memtotal] ends in [fatal] in these cases and no other:
    [sysctl] answers [-1] (macOS); one of the two [sysconf] answers, as a
    [long], is [-1]; [sysinfo] answers non-zero (the fallback build).
    Under [_WIN32] it never does: the answer of [GlobalMemoryStatusEx] is
    not looked at. *)
Theorem arch_get_memtotal_fatal_iff (p : process) :
  is_fatal (arch_get_memtotal t os p) = true <->
  _WIN32 t = false /\
  (if __APPLE__ t then (sysctl_hw_memsize os).1 = -1
   else if has_SC_PHYS_PAGES t && has_SC_PAGESIZE t
        then long t (sysconf os _SC_PHYS_PAGES) = -1
             \/ long t (sysconf os _SC_PAGESIZE) = -1
        else (sysinfo os).1.1 <> 0).
Proof.
  unfold arch_get_memtotal. run_layer.
  destruct (_WIN32 t) eqn:Hw; simpl; [split; [done|by intros [? _]]|].
  destruct (__APPLE__ t); simpl.
  - destruct (sysctl_hw_memsize os) as [rc ram]; simpl.
    destruct (decide (rc = -1)); simpl;
      (split; [by intros ? | by intros [_ ?]]).
  - destruct (has_SC_PHYS_PAGES t && has_SC_PAGESIZE t); simpl.
    + rewrite !int64_of_long by done.
      destruct (bool_decide (long t (sysconf os _SC_PHYS_PAGES) = -1)) eqn:H1;
        destruct (bool_decide (long t (sysconf os _SC_PAGESIZE) = -1)) eqn:H2;
        simpl;
        try apply bool_decide_eq_true in H1;
        try apply bool_decide_eq_true in H2;
        try apply bool_decide_eq_false in H1;
        try apply bool_decide_eq_false in H2;
        (split; [intros ?; split; [done|]; try done; auto
                | intros [_ [?|?]]; done]).
    + destruct (sysinfo os) as [[rc totalram] mem_unit]; simpl.
      destruct (decide (rc <> 0)); simpl;
        (split; [by intros ? | by intros [_ ?]]).
Qed.

(** What [arch_get_memtotal] returns in the builds that do not ask
    [sysconf]: [ullTotalPhys] under [_WIN32], the [hw.memsize] of
    [sysctl] on macOS, [totalram * mem_unit] of [sysinfo] in the fallback
    build (for amounts that fit the types they are held in). *)
Theorem arch_get_memtotal_other_builds (p : process) :
  (_WIN32 t = true ->
   0 <= ullTotalPhys os < 2 ^ 64 ->
   returned (arch_get_memtotal t os p) = Some (ullTotalPhys os)) /\
  (_WIN32 t = false -> __APPLE__ t = true ->
   forall rc ram,
     sysctl_hw_memsize os = (rc, ram) -> rc <> -1 -> 0 <= ram < 2 ^ 63 ->
     returned (arch_get_memtotal t os p) = Some ram) /\
  (_WIN32 t = false -> __APPLE__ t = false ->
   has_SC_PHYS_PAGES t && has_SC_PAGESIZE t = false ->
   forall totalram mem_unit,
     sysinfo os = (0, totalram, mem_unit) ->
     0 <= totalram < 2 ^ 64 -> 0 <= mem_unit < 2 ^ 32 ->
     totalram * mem_unit < 2 ^ 64 ->
     returned (arch_get_memtotal t os p) = Some (totalram * mem_unit)).
Proof.
  unfold arch_get_memtotal. run_layer. split; [|split].
  - intros -> Hr. simpl. by rewrite uint64_id.
  - intros -> -> rc ram -> Hrc Hram. simpl.
    destruct (decide (rc = -1)); [done|]. simpl.
    rewrite int64_id by lia. by rewrite uint64_id by lia.
  - intros -> -> -> totalram mem_unit -> H1 H2 H3. simpl.
    rewrite (uint64_id totalram) by lia.
    unfold CInt.uint32_t. rewrite (to_unsigned_id 32 mem_unit) by lia.
    by rewrite uint64_id by nia.
Qed.

End MonitorMore.

(** ** File primitives: 64-bit offsets through the unsigned types *)

Section FilesMore.

Variable t : target.
Variable os : host.

Lemma int64_of_uint64_value (x : Z) :
  0 <= x < 2 ^ 64 ->
  CInt.int64_t x = if decide (x < 2 ^ 63) then x else x - 2 ^ 64.
Proof.
  intros Hx. unfold CInt.int64_t, CInt.to_signed.
  change (2 ^ (64 - 1)) with (2 ^ 63).
  destruct (decide (x < 2 ^ 63)).
  - rewrite Z.mod_small by lia. lia.
  - replace (x + 2 ^ 63) with (x - 2 ^ 63 + 1 * 2 ^ 64) by lia.
    rewrite Z_mod_plus_full, Z.mod_small by lia. lia.
Qed.

Lemma uint64_of_int64_value (r : Z) :
  - 2 ^ 63 <= r < 2 ^ 63 ->
  CInt.uint64_t (CInt.int64_t r) = if decide (0 <= r) then r else r + 2 ^ 64.
Proof.
  intros Hr. rewrite int64_id by done.
  unfold CInt.uint64_t, CInt.to_unsigned.
  destruct (decide (0 <= r)).
  - apply Z.mod_small. lia.
  - replace r with (r + 2 ^ 64 + (-1) * 2 ^ 64) at 1 by lia.
    rewrite Z_mod_plus_full. apply Z.mod_small. lia.
Qed.

(** [xlseek] always makes one seek call, and hands it the caller's
    unsigned offset as a signed one: unchanged below [2^63], and as the
    negative number [offset - 2^64] from [2^63] on. *)
Theorem xlseek_offset_passed (fd offset whence : Z) (p : process) :
  0 <= offset < 2 ^ 64 ->
  exists v p',
    xlseek t os fd offset whence p = Ret v p' /\
    log p'
    = (let off := if decide (offset < 2 ^ 63) then offset
                  else offset - 2 ^ 64 in
       if _WIN32 t then lseeki64_ fd off whence else lseek_ fd off whence)
      :: log p.
Proof.
  intros Hoff. unfold xlseek. run_layer.
  cbv zeta. rewrite (int64_of_uint64_value offset) by done.
  eexists _, _. split; [reflexivity|]. simpl.
  by destruct (_WIN32 t).
Qed.

(** What the caller of [xlseek] and [xftello] receives for an answer [r]
    of the underlying call: [r] itself when it is not negative (offsets
    beyond 4 GiB included), [r + 2^64] when it is; so the result is
    [2^64 - 1] exactly when the underlying call answered [-1]. *)
Theorem xlseek_xftello_results
  (fd offset whence stream : Z) (p : process) :
  - 2 ^ 63 <= host_lseek os (log p) fd (CInt.int64_t offset) whence < 2 ^ 63 ->
  - 2 ^ 63 <= host_ftello os (log p) stream < 2 ^ 63 ->
  let rl := host_lseek os (log p) fd (CInt.int64_t offset) whence in
  let rt := host_ftello os (log p) stream in
  returned (xlseek t os fd offset whence p)
  = Some (if decide (0 <= rl) then rl else rl + 2 ^ 64) /\
  returned (xftello t os stream p)
  = Some (if decide (0 <= rt) then rt else rt + 2 ^ 64) /\
  (returned (xlseek t os fd offset whence p) = Some (2 ^ 64 - 1)
   <-> rl = -1) /\
  (returned (xftello t os stream p) = Some (2 ^ 64 - 1) <-> rt = -1).
Proof.
  intros Hl Ht rl rt.
  assert (H1 : returned (xlseek t os fd offset whence p)
               = Some (if decide (0 <= rl) then rl else rl + 2 ^ 64)).
  { unfold xlseek. run_layer. simpl. by rewrite uint64_of_int64_value. }
  assert (H2 : returned (xftello t os stream p)
               = Some (if decide (0 <= rt) then rt else rt + 2 ^ 64)).
  { unfold xftello. run_layer. simpl. by rewrite uint64_of_int64_value. }
  split; [done|]. split; [done|]. rewrite H1, H2.
  fold rl in Hl. fold rt in Ht.
  split; (split; [intros [= H]|intros ->]).
  - destruct (decide (0 <= rl)); lia.
  - reflexivity.
  - destruct (decide (0 <= rt)); lia.
  - reflexivity.
Qed.

End FilesMore.

(** ** The further properties on concrete runs *)

Lemma heap_ok_empty : heap_ok ∅.
Proof.
  split; [apply map_Forall_empty|].
  intros a1 b1 a2 b2 H1. by rewrite lookup_empty in H1.
Qed.

Lemma heap_ok_one_block : heap_ok (heap Hosts.one_block).
Proof.
  apply heap_ok_insert; [apply heap_ok_empty|lia|simpl; lia|].
  intros a b' H. by rewrite lookup_empty in H.
Qed.

Lemma xmalloc_gives_aligned_block_witness :
  exists p',
    0 <= 5 /\
    xmalloc Hosts.linux Hosts.machine 5 (start 0) = Ret 4096 p' /\
    0 < 4096 /\ 4096 mod memalignment = 0 /\
    exists b, heap p' !! 4096 = Some b /\ Z.of_nat (length b) = Z.max 5 1.
Proof.
  eexists.
  assert (H0 : 0 <= 5) by lia.
  split; [exact H0|].
  match goal with
  | |- ?A /\ _ => assert (H : A) by (vm_compute; reflexivity)
  end.
  split; [exact H|].
  exact (xmalloc_gives_aligned_block _ _ _ _ _ _ H0 H).
Defined.

Lemma xrealloc_aligned_when_library_is_witness :
  exists p',
    (_WIN32 Hosts.linux = true
     \/ (memalignment | malloc_alignment Hosts.machine)) /\
    xrealloc Hosts.linux Hosts.machine 4096 8 Hosts.one_block = Ret 4096 p' /\
    4096 mod memalignment = 0.
Proof.
  eexists.
  assert (H0 : _WIN32 Hosts.linux = true
               \/ (memalignment | malloc_alignment Hosts.machine))
    by (right; exists 1; reflexivity).
  split; [exact H0|].
  match goal with
  | |- ?A /\ _ => assert (H : A) by (vm_compute; reflexivity)
  end.
  split; [exact H|].
  exact (xrealloc_aligned_when_library_is _ _ _ _ _ _ _ H0 H).
Defined.

Lemma xmalloc_xfree_round_trip_witness :
  exists p1,
    heap_ok (heap Hosts.one_block) /\ 0 <= 8 /\
    xmalloc Hosts.linux Hosts.machine 8 Hosts.one_block = Ret 4112 p1 /\
    exists p2, xfree Hosts.linux 4112 p1 = Ret tt p2 /\
               heap p2 = heap Hosts.one_block.
Proof.
  eexists.
  assert (H0 : 0 <= 8) by lia.
  split; [exact heap_ok_one_block|]. split; [exact H0|].
  match goal with
  | |- ?A /\ _ => assert (H : A) by (vm_compute; reflexivity)
  end.
  split; [exact H|].
  exact (xmalloc_xfree_round_trip _ _ _ _ _ _ heap_ok_one_block H0 H).
Defined.

Lemma xmalloc_keeps_live_blocks_witness :
  exists p',
    heap_ok (heap Hosts.one_block) /\ 0 <= 8 /\
    xmalloc Hosts.linux Hosts.machine 8 Hosts.one_block = Ret 4112 p' /\
    heap Hosts.one_block !! 4096 = Some [1; 2; 3; 4] /\
    heap p' !! 4096 = Some [1; 2; 3; 4] /\
    (4112 + Z.max 8 1 <= 4096
     \/ 4096 + Z.of_nat (length [1; 2; 3; 4]) <= 4112).
Proof.
  eexists.
  assert (H0 : 0 <= 8) by lia.
  assert (H1 : heap Hosts.one_block !! 4096 = Some [1; 2; 3; 4])
    by (by vm_compute).
  split; [exact heap_ok_one_block|]. split; [exact H0|].
  match goal with
  | |- ?A /\ _ => assert (H : A) by (vm_compute; reflexivity)
  end.
  split; [exact H|]. split; [exact H1|].
  exact (xmalloc_keeps_live_blocks _ _ _ _ _ _ _ _
           heap_ok_one_block H0 H H1).
Defined.

Lemma heap_ok_two_blocks : heap_ok (heap Hosts.two_blocks).
Proof.
  apply heap_ok_insert; [apply heap_ok_one_block|lia|simpl; lia|].
  intros a b' H. simpl in H.
  apply lookup_singleton_Some in H as [<- <-]. simpl. lia.
Qed.

Lemma xrealloc_keeps_other_blocks_witness :
  exists p',
    heap_ok (heap Hosts.two_blocks) /\ 0 <= 64 /\
    xrealloc Hosts.linux Hosts.machine 4096 64 Hosts.two_blocks
    = Ret 4128 p' /\
    (forall a' b, a' <> 4096 -> heap Hosts.two_blocks !! a' = Some b ->
                  heap p' !! a' = Some b) /\
    (4096 <> Heap.nullptr -> 4128 <> 4096 -> heap p' !! 4096 = None).
Proof.
  eexists.
  assert (H0 : 0 <= 64) by lia.
  split; [exact heap_ok_two_blocks|]. split; [exact H0|].
  match goal with
  | |- ?A /\ _ => assert (H : A) by (vm_compute; reflexivity)
  end.
  split; [exact H|].
  exact (xrealloc_keeps_other_blocks _ _ _ _ _ _ _ heap_ok_two_blocks H0 H).
Defined.

Lemma xrealloc_null_allocates_witness :
  0 <= 8 /\
  exists p' b,
    xrealloc Hosts.linux Hosts.machine Heap.nullptr 8 Hosts.one_block
    = Ret 4112 p' /\
    heap p' = <[4112 := b]> (heap Hosts.one_block) /\
    Z.of_nat (length b) = Z.max 8 1.
Proof.
  assert (H0 : 0 <= 8) by lia.
  split; [exact H0|].
  exact (xrealloc_null_allocates Hosts.linux Hosts.machine 8
           Hosts.one_block H0).
Defined.

Lemma xfree_twice_undefined_witness :
  exists p',
    xfree Hosts.linux 4096 Hosts.one_block = Ret tt p' /\
    xfree Hosts.linux 4096 p' = Undefined.
Proof.
  eexists.
  match goal with
  | |- ?A /\ _ => assert (H : A) by (vm_compute; reflexivity)
  end.
  split; [exact H|].
  exact (xfree_twice_undefined _ _ _ _ H).
Defined.

Lemma arch_srandom_never_reseeds_witness :
  exists p',
    arch_srandom Hosts.linux Hosts.machine (start 0) = Ret tt p' /\
    exists values,
      returned (draws Hosts.machine 3 p') = Some values /\
      returned (draws Hosts.machine 3 (start 0)) = Some values.
Proof.
  eexists.
  match goal with
  | |- ?A /\ _ => assert (H : A) by (vm_compute; reflexivity)
  end.
  split; [exact H|].
  exact (proj2 (proj2 (arch_srandom_never_reseeds
                         Hosts.linux Hosts.machine 3 (start 0))) _ H).
Defined.

Lemma arch_srandom_posix_nonzero_is_noop_witness :
  _WIN32 Hosts.linux = false /\
  CInt.uint32_t (opt_randseed (start 42)) <> 0 /\
  arch_srandom Hosts.linux Hosts.machine (start 42) = Ret tt (start 42).
Proof.
  assert (H1 : _WIN32 Hosts.linux = false) by reflexivity.
  assert (H2 : CInt.uint32_t (opt_randseed (start 42)) <> 0)
    by (by vm_compute).
  split; [exact H1|]. split; [exact H2|].
  exact (arch_srandom_posix_nonzero_is_noop
           Hosts.linux Hosts.machine (start 42) H1 H2).
Defined.

Lemma arch_srandom_win32_seeds_crt_witness :
  _WIN32 Hosts.windows = true /\
  exists p',
    arch_srandom Hosts.windows Hosts.machine (start 0) = Ret tt p' /\
    crt_seed p' = (if decide (CInt.uint32_t (opt_randseed (start 0)) = 0)
                   then CInt.uint32_t (time Hosts.machine)
                   else CInt.uint32_t (opt_randseed (start 0))) /\
    heap p' = heap (start 0) /\ generator p' = generator (start 0).
Proof.
  assert (H1 : _WIN32 Hosts.windows = true) by reflexivity.
  split; [exact H1|].
  exact (arch_srandom_win32_seeds_crt
           Hosts.windows Hosts.machine (start 0) H1).
Defined.

Lemma run_keeps_heap_ok_witness :
  exists p',
    heap_ok (heap (start 0)) /\
    Forall sizes_ok [call_xmalloc 8; call_arch_random;
                     call_xrealloc 4096 32; call_xmalloc 0;
                     call_xfree 4096] /\
    perform_all Hosts.linux Hosts.machine
      [call_xmalloc 8; call_arch_random; call_xrealloc 4096 32;
       call_xmalloc 0; call_xfree 4096] (start 0) = Ret tt p' /\
    heap_ok (heap p').
Proof.
  eexists.
  assert (H1 : Forall sizes_ok [call_xmalloc 8; call_arch_random;
                                call_xrealloc 4096 32; call_xmalloc 0;
                                call_xfree 4096])
    by (repeat constructor; simpl; lia).
  split; [exact heap_ok_empty|]. split; [exact H1|].
  match goal with
  | |- ?A /\ _ => assert (H : A) by (vm_compute; reflexivity)
  end.
  split; [exact H|].
  exact (run_keeps_heap_ok Hosts.linux Hosts.machine _ (start 0) _
           heap_ok_empty H1 H).
Defined.

Lemma run_keeps_heap_aligned_witness :
  exists p',
    (memalignment | realloc_alignment Hosts.linux Hosts.machine) /\
    heap_aligned (heap (start 0)) /\
    perform_all Hosts.linux Hosts.machine
      [call_xmalloc 8; call_xrealloc 4096 32; call_xmalloc 3] (start 0)
    = Ret tt p' /\
    heap_aligned (heap p').
Proof.
  eexists.
  assert (H1 : (memalignment | realloc_alignment Hosts.linux Hosts.machine))
    by (exists 1; reflexivity).
  assert (H2 : heap_aligned (heap (start 0))) by apply map_Forall_empty.
  split; [exact H1|]. split; [exact H2|].
  match goal with
  | |- ?A /\ _ => assert (H : A) by (vm_compute; reflexivity)
  end.
  split; [exact H|].
  exact (run_keeps_heap_aligned Hosts.linux Hosts.machine _ H1
           (start 0) _ H2 H).
Defined.

Lemma draw_depends_only_on_count_witness :
  exists p1 p2,
    uniform_int_distribution Hosts.machine
    = uniform_int_distribution Hosts.machine_later /\
    count_draws [call_xmalloc 8; call_arch_random; call_arch_srandom]
    = count_draws [call_arch_get_cores; call_arch_random] /\
    perform_all Hosts.linux Hosts.machine
      [call_xmalloc 8; call_arch_random; call_arch_srandom] (start 7)
    = Ret tt p1 /\
    perform_all Hosts.windows Hosts.machine_later
      [call_arch_get_cores; call_arch_random] (start 0) = Ret tt p2 /\
    returned (arch_random Hosts.machine p1)
    = returned (arch_random Hosts.machine_later p2).
Proof.
  eexists _, _.
  assert (H1 : uniform_int_distribution Hosts.machine
               = uniform_int_distribution Hosts.machine_later)
    by reflexivity.
  assert (H2 : count_draws [call_xmalloc 8; call_arch_random;
                            call_arch_srandom]
               = count_draws [call_arch_get_cores; call_arch_random])
    by reflexivity.
  split; [exact H1|]. split; [exact H2|].
  match goal with
  | |- ?A /\ _ => assert (H3 : A) by (vm_compute; reflexivity)
  end.
  split; [exact H3|].
  match goal with
  | |- ?A /\ _ => assert (H4 : A) by (vm_compute; reflexivity)
  end.
  split; [exact H4|].
  exact (draw_depends_only_on_count _ _ _ _ _ _ _ _ _ _ H1 H2 H3 H4).
Defined.

Lemma arch_get_memtotal_other_builds_witness :
  _WIN32 Hosts.macos = false /\ __APPLE__ Hosts.macos = true /\
  sysctl_hw_memsize Hosts.machine = (0, 17179869184) /\
  0 <> -1 /\ 0 <= 17179869184 < 2 ^ 63 /\
  returned (arch_get_memtotal Hosts.macos Hosts.machine (start 0))
  = Some 17179869184.
Proof.
  assert (H1 : _WIN32 Hosts.macos = false) by reflexivity.
  assert (H2 : __APPLE__ Hosts.macos = true) by reflexivity.
  assert (H3 : sysctl_hw_memsize Hosts.machine = (0, 17179869184))
    by reflexivity.
  assert (H4 : 0 <> -1) by lia.
  assert (H5 : 0 <= 17179869184 < 2 ^ 63) by lia.
  repeat (split; [assumption|]).
  exact (proj1 (proj2 (arch_get_memtotal_other_builds
                         Hosts.macos Hosts.machine (start 0)))
           H1 H2 0 17179869184 H3 H4 H5).
Defined.

Lemma xlseek_offset_passed_witness :
  0 <= 2 ^ 63 + 5 < 2 ^ 64 /\
  exists v p',
    xlseek Hosts.linux Hosts.machine 3 (2 ^ 63 + 5) 0 (start 0) = Ret v p' /\
    log p'
    = (let off := if decide (2 ^ 63 + 5 < 2 ^ 63) then 2 ^ 63 + 5
                  else 2 ^ 63 + 5 - 2 ^ 64 in
       if _WIN32 Hosts.linux then lseeki64_ 3 off 0 else lseek_ 3 off 0)
      :: log (start 0).
Proof.
  assert (H : 0 <= 2 ^ 63 + 5 < 2 ^ 64) by lia.
  split; [exact H|].
  exact (xlseek_offset_passed Hosts.linux Hosts.machine 3 (2 ^ 63 + 5) 0
           (start 0) H).
Defined.

Lemma xlseek_xftello_results_witness :
  - 2 ^ 63 <= host_lseek Hosts.machine (log (start 0)) 3
                (CInt.int64_t 5000000000) 0 < 2 ^ 63 /\
  - 2 ^ 63 <= host_ftello Hosts.machine (log (start 0)) 0 < 2 ^ 63 /\
  returned (xlseek Hosts.linux Hosts.machine 3 5000000000 0 (start 0))
  = Some 5000000000 /\
  returned (xftello Hosts.linux Hosts.machine 0 (start 0))
  = Some (2 ^ 64 - 1).
Proof.
  assert (H1 : - 2 ^ 63 <= host_lseek Hosts.machine (log (start 0)) 3
                             (CInt.int64_t 5000000000) 0 < 2 ^ 63)
    by (by vm_compute).
  assert (H2 : - 2 ^ 63 <= host_ftello Hosts.machine (log (start 0)) 0
               < 2 ^ 63) by (by vm_compute).
  split; [exact H1|]. split; [exact H2|].
  pose proof (xlseek_xftello_results Hosts.linux Hosts.machine
                3 5000000000 0 0 (start 0) H1 H2) as (Hl & Ht & _).
  split; [exact Hl|exact Ht].
Defined.
